(** * PR-comment aggregation, CI-failure collection and Markdown rendering

    A shallow embedding of [autocoder_utils/gh_pr_helper.py]: the GraphQL
    page fetchers, the two nested pagination loops of
    [fetch_review_comments_graphql], the CI log summarizer, the CI failure
    collector and the Markdown renderer, followed by the properties stated
    about them.

    Conventions.
    - A Python [str] is a [string] whose characters are code points below 256.
    - A parsed JSON payload is a [json] value (numbers are integers).
    - A call of the [gh] command line tool is a step of an abstract host:
      a state of type [World] together with one function per kind of call.
    - A [while True] loop takes a fuel argument counting its iterations;
      [OutOfFuel] is the only outcome of a loop that never leaves. *)

From Stdlib Require Import ZArith List String Ascii Bool Lia.
From Stdlib Require Import Sorting.Sorted Sorting.Permutation.
From stdpp Require Import base gmap strings pretty.
Import ListNotations.

Open Scope string_scope.
Open Scope list_scope.
Open Scope Z_scope.
Set Warnings "-register-all".

(* ===================================================================== *)
(** * Python built-ins used by the module                                 *)
(* ===================================================================== *)

Module Py.

(** [str.isspace] on one character (code points below 256). *)
Definition is_space (c : ascii) : bool :=
  let n := nat_of_ascii c in
  ((9 <=? n)%nat && (n <=? 13)%nat) || ((28 <=? n)%nat && (n <=? 32)%nat)
  || (n =? 133)%nat || (n =? 160)%nat.

(** [s.lstrip()], [s.rstrip()], [s.strip()]. *)
Fixpoint lstrip (s : string) : string :=
  match s with
  | EmptyString => EmptyString
  | String c s' => if is_space c then lstrip s' else s
  end.

Fixpoint rstrip (s : string) : string :=
  match s with
  | EmptyString => EmptyString
  | String c s' =>
      match rstrip s' with
      | EmptyString => if is_space c then EmptyString else String c EmptyString
      | r => String c r
      end
  end.

Definition strip (s : string) : string := lstrip (rstrip s).

(** [s.lower()]: A-Z and the Latin-1 capitals (all of 0xC0-0xDE but the
    multiplication sign 0xD7) move up by 32. *)
Definition lower_char (c : ascii) : ascii :=
  let n := nat_of_ascii c in
  if ((65 <=? n)%nat && (n <=? 90)%nat)
     || ((192 <=? n)%nat && (n <=? 222)%nat && negb (n =? 215)%nat)
  then ascii_of_nat (n + 32) else c.

Fixpoint lower (s : string) : string :=
  match s with
  | EmptyString => EmptyString
  | String c s' => String (lower_char c) (lower s')
  end.

(** Line boundaries of [str.splitlines]: LF, VT, FF, CR, FS, GS, RS, NEL
    (CR LF counts once, see [splitlines]). *)
Definition is_linebreak (c : ascii) : bool :=
  let n := nat_of_ascii c in
  ((10 <=? n)%nat && (n <=? 13)%nat) || ((28 <=? n)%nat && (n <=? 30)%nat)
  || (n =? 133)%nat.

(** [s.splitlines()]: the lines without their terminators; a final
    terminator opens no empty last line and the empty string has no line. *)
Fixpoint splitlines (s : string) : list string :=
  match s with
  | EmptyString => []
  | String c s' =>
      if is_linebreak c then
        match s' with
        | String c' s'' =>
            if ((nat_of_ascii c =? 13)%nat && (nat_of_ascii c' =? 10)%nat)%bool
            then EmptyString :: splitlines s''
            else EmptyString :: splitlines s'
        | EmptyString => [EmptyString]
        end
      else
        match splitlines s' with
        | [] => [String c EmptyString]
        | l :: ls => String c l :: ls
        end
  end.

(** [sep.join(parts)]. *)
Definition join (sep : string) (parts : list string) : string :=
  String.concat sep parts.

(** [needle in hay] on strings. *)
Fixpoint contains (needle hay : string) : bool :=
  String.prefix needle hay
  || match hay with
     | EmptyString => false
     | String _ hay' => contains needle hay'
     end.

(** [a < b] on strings: lexicographic on code points, a proper prefix first. *)
Fixpoint str_lt (a b : string) : bool :=
  match a, b with
  | _, EmptyString => false
  | EmptyString, String _ _ => true
  | String x a', String y b' =>
      (nat_of_ascii x <? nat_of_ascii y)%nat
      || ((nat_of_ascii x =? nat_of_ascii y)%nat && str_lt a' b')
  end.

(** [str(n)] for an [int]. *)
Definition str_int (n : Z) : string := pretty n.

(** [str(x)] for a value that is a string or [None]. *)
Definition str_opt (x : option string) : string :=
  match x with Some s => s | None => "None" end.

(** Truth value of an [int | None] and of a [str | None]. *)
Definition truthy_int (x : option Z) : bool :=
  match x with Some n => negb (n =? 0) | None => false end.

Definition truthy_str (x : option string) : bool :=
  match x with Some s => negb (String.eqb s "") | None => false end.

(** [lines[start:]] for [0 <= start]. *)
Definition slice_from {A} (start : nat) (l : list A) : list A := skipn start l.

End Py.


(** The string of one newline character, ["\n"]. *)
Definition LF : string := String (ascii_of_nat 10) EmptyString.

(* ===================================================================== *)
(** * Parsed JSON and the Python operations applied to it                 *)
(* ===================================================================== *)

(** What [json.loads] returns: [None], [bool], [int], [str], [list], [dict].
    A dict is the list of its items in insertion order, keys distinct. *)
Inductive json : Type :=
| JNull
| JBool (b : bool)
| JInt (n : Z)
| JStr (s : string)
| JList (items : list json)
| JDict (fields : list (string * json)).

(** The exceptions that can leave the functions of the module. *)
Inductive exn : Type :=
| GitHubAPICallError (msg : string)
| GitHubJSONError (msg : string)
| GitHubGraphQLError (errors : json)
| GitHubResponseError (msg : string)
| KeyError
| IndexError
| TypeError
| AttributeError.

(** The result of running a piece of code: a value, an exception, or a loop
    that used up its fuel. *)
Inductive outcome (A : Type) : Type :=
| Ok (a : A)
| Raise (e : exn)
| OutOfFuel.
Arguments Ok {A} a.
Arguments Raise {A} e.
Arguments OutOfFuel {A}.

Definition obind {A B} (o : outcome A) (k : A -> outcome B) : outcome B :=
  match o with
  | Ok a => k a
  | Raise e => Raise e
  | OutOfFuel => OutOfFuel
  end.

Declare Scope outcome_scope.
Delimit Scope outcome_scope with outcome.
Notation "x <- c ;; k" := (obind c (fun x => k))
  (at level 100, c at next level, right associativity) : outcome_scope.

Module Json.

(** [bool(v)]. *)
Definition truthy (v : json) : bool :=
  match v with
  | JNull => false
  | JBool b => b
  | JInt n => negb (n =? 0)
  | JStr s => negb (String.eqb s "")
  | JList items => match items with [] => false | _ => true end
  | JDict fields => match fields with [] => false | _ => true end
  end.

(** [a or b]. *)
Definition or_else (a b : json) : json := if truthy a then a else b.

Fixpoint assoc (k : string) (fields : list (string * json)) : option json :=
  match fields with
  | [] => None
  | (k', v) :: rest => if String.eqb k k' then Some v else assoc k rest
  end.

(** [d.get(k, default)]: only a dict has the method. *)
Definition get (d : json) (k : string) (default : json) : outcome json :=
  match d with
  | JDict fields => Ok (match assoc k fields with Some v => v | None => default end)
  | _ => Raise AttributeError
  end.

(** [d[k]] for a string [k]. *)
Definition item (d : json) (k : string) : outcome json :=
  match d with
  | JDict fields => match assoc k fields with Some v => Ok v | None => Raise KeyError end
  | _ => Raise TypeError
  end.

(** [v[0]]. *)
Definition first (v : json) : outcome json :=
  match v with
  | JList (x :: _) => Ok x
  | JList [] => Raise IndexError
  | JStr (String c _) => Ok (JStr (String c EmptyString))
  | JStr EmptyString => Raise IndexError
  | JDict _ => Raise KeyError
  | _ => Raise TypeError
  end.

(** [k in v] for a string [k]. *)
Definition has (k : string) (v : json) : outcome bool :=
  match v with
  | JDict fields => Ok (match assoc k fields with Some _ => true | None => false end)
  | JList items =>
      Ok (existsb (fun x => match x with JStr s => String.eqb s k | _ => false end) items)
  | JStr s => Ok (Py.contains k s)
  | _ => Raise TypeError
  end.

(** The values a [for x in v] loop visits. *)
Fixpoint chars (s : string) : list json :=
  match s with
  | EmptyString => []
  | String c s' => JStr (String c EmptyString) :: chars s'
  end.

Definition iter (v : json) : outcome (list json) :=
  match v with
  | JList items => Ok items
  | JDict fields => Ok (map (fun kv => JStr (fst kv)) fields)
  | JStr s => Ok (chars s)
  | _ => Raise TypeError
  end.

(** [try: ... except (KeyError, TypeError): raise GitHubResponseError(msg)]. *)
Definition shape_guard {A} (msg : string) (o : outcome A) : outcome A :=
  match o with
  | Raise KeyError | Raise TypeError => Raise (GitHubResponseError msg)
  | _ => o
  end.

(** [if "errors" in payload and payload["errors"]: raise GitHubGraphQLError]. *)
Definition check_errors (payload : json) : outcome unit :=
  (present <- has "errors" payload ;;
   if present : bool then
     errors <- item payload "errors" ;;
     if truthy errors then Raise (GitHubGraphQLError errors) else Ok tt
   else Ok tt)%outcome.

End Json.

(* ===================================================================== *)
(** * The repository host: [gh api graphql] and [gh run view]             *)
(* ===================================================================== *)

(** The two GraphQL documents of the module. *)
Inductive graphql_query : Type :=
| GRAPHQL_REVIEW_COMMENTS_QUERY
| GRAPHQL_CI_FAILURES_QUERY.

(** The variable parts of one [gh api graphql] command line: the [-f]/[-F]
    fields [owner], [repo], [pr], the optional [threadsAfter] and
    [commentsAfter] fields (absent when the cursor is falsy), the query. *)
Record graphql_call : Type := {
  gq_owner : string;
  gq_repo : string;
  gq_pr : string;
  gq_threads_after : option json;
  gq_comments_after : option json;
  gq_query : graphql_query
}.

(** What [subprocess.run(..., check=True)] followed by [json.loads] gives. *)
Inductive graphql_reply : Type :=
| CalledProcessError (stderr : string)
| JSONDecodeError (msg : string)
| Stdout (payload : json).

(** What [gh run view <id> --log-failed] gives. *)
Inductive run_view_reply : Type :=
| RunViewFailed (stderr : string)
| RunViewStdout (text : string).

(** Every call made, in order. *)
Inductive call : Type :=
| GraphQL (c : graphql_call)
| RunView (run_id : string).

Record hstate (World : Type) : Type := {
  world : World;
  calls : list call
}.
Arguments world {World} _.
Arguments calls {World} _.

(** Code that may call the host: it threads the host state, which survives
    an exception. *)
Definition M (World A : Type) : Type := hstate World -> outcome A * hstate World.

Definition hret {World A} (a : A) : M World A := fun st => (Ok a, st).

Definition hbind {World A B} (c : M World A) (k : A -> M World B) : M World B :=
  fun st =>
    match c st with
    | (Ok a, st') => k a st'
    | (Raise e, st') => (Raise e, st')
    | (OutOfFuel, st') => (OutOfFuel, st')
    end.

Definition lift {World A} (o : outcome A) : M World A := fun st => (o, st).

Declare Scope host_scope.
Delimit Scope host_scope with host.
Notation "x <- c ;; k" := (hbind c (fun x => k))
  (at level 100, c at next level, right associativity) : host_scope.

Section Host.

Context {World : Type}.

(** The host's answer to a GraphQL command line. *)
Variable gh_api_graphql : World -> graphql_call -> graphql_reply * World.

(** [subprocess.run(cmd, ...)] and [json.loads(result.stdout)] with their
    two handlers. *)
Definition run_graphql (cmd : graphql_call) : M World json :=
  fun st =>
    let (reply, w) := gh_api_graphql (world st) cmd in
    let st' := {| world := w; calls := calls st ++ [GraphQL cmd] |} in
    match reply with
    | CalledProcessError stderr =>
        (Raise (GitHubAPICallError ("gh GraphQL API call failed: " +:+ stderr)), st')
    | JSONDecodeError msg =>
        (Raise (GitHubJSONError ("Failed to parse GraphQL response: " +:+ msg)), st')
    | Stdout payload => (Ok payload, st')
    end.

(** The cursor field of a command line: [if cursor: cmd.extend(...)]. *)
Definition cursor_field (cursor : json) : option json :=
  if Json.truthy cursor then Some cursor else None.

Definition _fetch_review_threads_page
    (owner repo pr_number : string) (threads_after : json)
    : M World (json * json * json) :=
  (let cmd := {| gq_owner := owner; gq_repo := repo; gq_pr := pr_number;
                 gq_threads_after := cursor_field threads_after;
                 gq_comments_after := None;
                 gq_query := GRAPHQL_REVIEW_COMMENTS_QUERY |} in
   payload <- run_graphql cmd ;;
   _ <- lift (Json.check_errors payload) ;;
   parsed <- lift (Json.shape_guard
       "Unexpected GraphQL response format when fetching review threads"
       (data <- Json.item payload "data" ;;
        repository <- Json.item data "repository" ;;
        pull_request <- Json.item repository "pullRequest" ;;
        review_threads_data <- Json.item pull_request "reviewThreads" ;;
        edges <- Json.get review_threads_data "edges" JNull ;;
        info <- Json.get review_threads_data "pageInfo" JNull ;;
        Ok (Json.or_else edges (JList []), Json.or_else info (JDict [])))%outcome) ;;
   let '(threads, page_info) := parsed in
   has_next_page <- lift (Json.get page_info "hasNextPage" (JBool false)) ;;
   end_cursor <- lift (Json.get page_info "endCursor" JNull) ;;
   hret (threads, has_next_page, end_cursor))%host.

Definition _fetch_thread_comments_page
    (owner repo pr_number : string) (comments_after : json)
    : M World (json * json * json) :=
  (let cmd := {| gq_owner := owner; gq_repo := repo; gq_pr := pr_number;
                 gq_threads_after := None;
                 gq_comments_after := cursor_field comments_after;
                 gq_query := GRAPHQL_REVIEW_COMMENTS_QUERY |} in
   payload <- run_graphql cmd ;;
   _ <- lift (Json.check_errors payload) ;;
   parsed <- lift (Json.shape_guard
       "Unexpected GraphQL response format when fetching thread comments"
       (data <- Json.item payload "data" ;;
        repository <- Json.item data "repository" ;;
        pull_request <- Json.item repository "pullRequest" ;;
        review_threads <- Json.item pull_request "reviewThreads" ;;
        threads <- Json.item review_threads "edges" ;;
        if Json.truthy threads then
          thread0 <- Json.first threads ;;
          node <- Json.get thread0 "node" (JDict []) ;;
          comments_data <- Json.get node "comments" (JDict []) ;;
          nodes <- Json.get comments_data "nodes" JNull ;;
          info <- Json.get comments_data "pageInfo" JNull ;;
          Ok (Json.or_else nodes (JList []), Json.or_else info (JDict []))
        else Ok (JList [], JDict []))%outcome) ;;
   let '(comment_nodes, page_info) := parsed in
   has_next_page <- lift (Json.get page_info "hasNextPage" (JBool false)) ;;
   end_cursor <- lift (Json.get page_info "endCursor" JNull) ;;
   hret (comment_nodes, has_next_page, end_cursor))%host.

(** The dict appended for one comment node of a thread. *)
Definition review_comment_dict (path line start_line comment : json) : outcome json :=
  (author <- Json.get comment "author" JNull ;;
   author_login <- Json.get (Json.or_else author (JDict [])) "login" (JStr "unknown") ;;
   diff_hunk <- Json.get comment "diffHunk" JNull ;;
   body <- Json.get comment "body" (JStr "") ;;
   url <- Json.get comment "url" JNull ;;
   Ok (JDict [("path", path); ("line", line); ("start_line", start_line);
              ("original_line", line); ("diff_hunk", diff_hunk);
              ("user", JDict [("login", author_login)]);
              ("body", body); ("url", url)]))%outcome.

(** [for comment in comment_nodes: review_comments.append({...})]. *)
Fixpoint append_comment_list (path line start_line : json) (nodes : list json)
    (review_comments : list json) : outcome (list json) :=
  match nodes with
  | [] => Ok review_comments
  | comment :: rest =>
      (d <- review_comment_dict path line start_line comment ;;
       append_comment_list path line start_line rest (review_comments ++ [d]))%outcome
  end.

Definition append_comments (path line start_line comment_nodes : json)
    (review_comments : list json) : outcome (list json) :=
  (nodes <- Json.iter comment_nodes ;;
   append_comment_list path line start_line nodes review_comments)%outcome.

(** The inner [while True] of [fetch_review_comments_graphql]: one round
    reads the thread's own nested page, appends its comments, and, when that
    page reports more, fetches one page with the thread's [endCursor] and
    appends it. *)
Fixpoint thread_comments_loop (fuel : nat) (owner repo pr_number : string)
    (thread path line start_line : json) (review_comments : list json)
    : M World (list json) :=
  match fuel with
  | O => lift OutOfFuel
  | S fuel' =>
      (comments1 <- lift (Json.get thread "comments" JNull) ;;
       nodes <- lift (Json.get (Json.or_else comments1 (JDict [])) "nodes" JNull) ;;
       let comment_nodes := Json.or_else nodes (JList []) in
       comments2 <- lift (Json.get thread "comments" JNull) ;;
       info <- lift (Json.get (Json.or_else comments2 (JDict [])) "pageInfo" JNull) ;;
       let comments_page_info := Json.or_else info (JDict []) in
       review_comments <- lift (append_comments path line start_line
                                  comment_nodes review_comments) ;;
       more <- lift (Json.get comments_page_info "hasNextPage" JNull) ;;
       if negb (Json.truthy more) then hret review_comments
       else
         comments_after <- lift (Json.get comments_page_info "endCursor" JNull) ;;
         page <- _fetch_thread_comments_page owner repo pr_number comments_after ;;
         let '(comment_nodes, has_next_comment_page, next_comment_cursor) := page in
         review_comments <- lift (append_comments path line start_line
                                    comment_nodes review_comments) ;;
         if negb (Json.truthy has_next_comment_page) then hret review_comments
         else thread_comments_loop fuel' owner repo pr_number
                thread path line start_line review_comments)%host
  end.

(** The body of [for edge in threads]. *)
Definition review_thread_edge (fuel : nat) (owner repo pr_number : string)
    (edge : json) (review_comments : list json) : M World (list json) :=
  (node <- lift (Json.get edge "node" JNull) ;;
   let thread := Json.or_else node (JDict []) in
   resolved <- lift (Json.get thread "isResolved" JNull) ;;
   if Json.truthy resolved then hret review_comments
   else
     path <- lift (Json.get thread "path" (JStr "unknown")) ;;
     line <- lift (Json.get thread "line" JNull) ;;
     start_line <- lift (Json.get thread "startLine" JNull) ;;
     thread_comments_loop fuel owner repo pr_number
       thread path line start_line review_comments)%host.

Fixpoint review_thread_edges (fuel : nat) (owner repo pr_number : string)
    (edges : list json) (review_comments : list json) : M World (list json) :=
  match edges with
  | [] => hret review_comments
  | edge :: rest =>
      (review_comments <- review_thread_edge fuel owner repo pr_number
                            edge review_comments ;;
       review_thread_edges fuel owner repo pr_number rest review_comments)%host
  end.

(** The outer [while True]. *)
Fixpoint review_threads_loop (fuel : nat) (owner repo pr_number : string)
    (threads_after : json) (review_comments : list json) : M World (list json) :=
  match fuel with
  | O => lift OutOfFuel
  | S fuel' =>
      (page <- _fetch_review_threads_page owner repo pr_number threads_after ;;
       let '(threads, has_next_thread_page, next_thread_cursor) := page in
       edges <- lift (Json.iter threads) ;;
       review_comments <- review_thread_edges fuel' owner repo pr_number
                            edges review_comments ;;
       if negb (Json.truthy has_next_thread_page) then hret review_comments
       else review_threads_loop fuel' owner repo pr_number
              next_thread_cursor review_comments)%host
  end.

Definition fetch_review_comments_graphql (fuel : nat) (owner repo pr_number : string)
    : M World (list json) :=
  review_threads_loop fuel owner repo pr_number JNull [].

End Host.

(* ===================================================================== *)
(** * Failed CI runs                                                      *)
(* ===================================================================== *)

Definition is_str (v : json) (s : string) : bool :=
  match v with JStr s' => String.eqb s' s | _ => false end.

Section HostCI.

Context {World : Type}.
Variable gh_api_graphql : World -> graphql_call -> graphql_reply * World.

(** [for context in contexts] of [fetch_failed_ci_runs]. *)
Fixpoint failed_contexts (contexts : list json) (failed_runs : list json)
    : outcome (list json) :=
  match contexts with
  | [] => Ok failed_runs
  | context :: rest =>
      (typename <- Json.get context "__typename" JNull ;;
       if negb (is_str typename "CheckRun") then failed_contexts rest failed_runs
       else
         conclusion <- Json.get context "conclusion" JNull ;;
         if negb (is_str conclusion "FAILURE") then failed_contexts rest failed_runs
         else
           check_suite <- Json.get context "checkSuite" JNull ;;
           run <- Json.get (Json.or_else check_suite (JDict [])) "workflowRun" JNull ;;
           let workflow_run := Json.or_else run (JDict []) in
           name <- Json.get context "name" JNull ;;
           details_url <- Json.get context "detailsUrl" JNull ;;
           workflow_run_id <- Json.get workflow_run "databaseId" JNull ;;
           workflow_url <- Json.get workflow_run "url" JNull ;;
           failed_contexts rest
             (failed_runs ++ [JDict [("name", name); ("details_url", details_url);
                                     ("workflow_run_id", workflow_run_id);
                                     ("workflow_url", workflow_url)]]))%outcome
  end.

(** [for node in commit_nodes] of [fetch_failed_ci_runs]. *)
Fixpoint failed_commit_nodes (commit_nodes : list json) (failed_runs : list json)
    : outcome (list json) :=
  match commit_nodes with
  | [] => Ok failed_runs
  | node :: rest =>
      (c <- Json.get node "commit" JNull ;;
       let commit := Json.or_else c (JDict []) in
       r <- Json.get commit "statusCheckRollup" JNull ;;
       let status_rollup := Json.or_else r (JDict []) in
       cs <- Json.get status_rollup "contexts" JNull ;;
       ns <- Json.get (Json.or_else cs (JDict [])) "nodes" JNull ;;
       contexts <- Json.iter (Json.or_else ns (JList [])) ;;
       failed_runs <- failed_contexts contexts failed_runs ;;
       failed_commit_nodes rest failed_runs)%outcome
  end.

Definition fetch_failed_ci_runs (owner repo pr_number : string) : M World (list json) :=
  (let cmd := {| gq_owner := owner; gq_repo := repo; gq_pr := pr_number;
                 gq_threads_after := None; gq_comments_after := None;
                 gq_query := GRAPHQL_CI_FAILURES_QUERY |} in
   payload <- run_graphql gh_api_graphql cmd ;;
   _ <- lift (Json.check_errors payload) ;;
   commit_nodes <- lift (Json.shape_guard
       "Unexpected GraphQL response format when fetching CI failures"
       (data <- Json.item payload "data" ;;
        repository <- Json.item data "repository" ;;
        pull_request <- Json.item repository "pullRequest" ;;
        commits <- Json.item pull_request "commits" ;;
        nodes <- Json.get commits "nodes" JNull ;;
        Ok (Json.or_else nodes (JList [])))%outcome) ;;
   nodes <- lift (Json.iter commit_nodes) ;;
   lift (failed_commit_nodes nodes []))%host.

End HostCI.

(** One entry of the list [fetch_failed_ci_runs] returns, at the types of the
    data model: [workflow_run_id] is GraphQL's [databaseId], an [Int]. *)
Module FailedRun.
Record t : Type := {
  name : option string;
  details_url : option string;
  workflow_run_id : option Z;
  workflow_url : option string
}.
End FailedRun.

(** One entry of the list [collect_ci_failures] returns; the renderer reads
    every key with [.get], so each may be missing. *)
Module CIFailure.
Record t : Type := {
  name : option string;
  workflow_run_id : option Z;
  details_url : option string;
  workflow_url : option string;
  log_output : option string
}.
End CIFailure.

(** [for idx, line in enumerate(lines): if marker in line.lower(): ... break]. *)
Fixpoint find_line (marker : string) (idx : nat) (lines : list string) : option nat :=
  match lines with
  | [] => None
  | line :: rest =>
      if Py.contains marker (Py.lower line) then Some idx
      else find_line marker (S idx) rest
  end.

Definition _summarize_ci_log (log_output : string) (include_full_log : bool) : string :=
  if include_full_log || String.eqb log_output "" then log_output
  else
    let lines := Py.splitlines (Py.strip log_output) in
    match lines with
    | [] => ""
    | _ =>
        let start_idx :=
          match find_line "short test summary info" 0 lines with
          | Some idx => idx
          | None =>
              match find_line "failed" 0 lines with
              | Some idx => idx
              | None => Z.to_nat (Z.max (Z.of_nat (length lines) - 40) 0)
              end
          end in
        Py.strip (Py.join LF (Py.slice_from start_idx lines))
    end.

(** [run.get("name") or "Failed check"]. *)
Definition name_or_default (name : option string) : string :=
  if Py.truthy_str name then Py.str_opt name else "Failed check".

(** [str(run_id) if run_id is not None else f"{name}:{details_url}"]. *)
Definition dedup_key (run : FailedRun.t) : string :=
  match FailedRun.workflow_run_id run with
  | Some run_id => Py.str_int run_id
  | None =>
      name_or_default (FailedRun.name run) +:+ ":" +:+ Py.str_opt (FailedRun.details_url run)
  end.

Section HostLogs.

Context {World : Type}.
Variable gh_run_view : World -> string -> run_view_reply * World.

Definition fetch_ci_run_log (run_id : Z) : M World string :=
  fun st =>
    let arg := Py.str_int run_id in
    let (reply, w) := gh_run_view (world st) arg in
    let st' := {| world := w; calls := calls st ++ [RunView arg] |} in
    match reply with
    | RunViewFailed stderr =>
        (Raise (GitHubAPICallError ("gh run view failed: " +:+ stderr)), st')
    | RunViewStdout text => (Ok text, st')
    end.

(** [try: raw = fetch_ci_run_log(run_id)
     except GitHubAPICallError as exc: raw = f"Failed to fetch logs ..."]. *)
Definition fetch_log_or_message (run_id : Z) : M World string :=
  fun st =>
    match fetch_ci_run_log run_id st with
    | (Raise (GitHubAPICallError exc), st') =>
        (Ok ("Failed to fetch logs for run " +:+ Py.str_int run_id +:+ ": " +:+ exc), st')
    | r => r
    end.

(** [for run in failed_runs] of [collect_ci_failures]. *)
Fixpoint collect_runs (failed_runs : list FailedRun.t) (include_full_logs : bool)
    (seen_runs : gset string) (ci_failures : list CIFailure.t)
    : M World (list CIFailure.t) :=
  match failed_runs with
  | [] => hret ci_failures
  | run :: rest =>
      let run_id := FailedRun.workflow_run_id run in
      let details_url := FailedRun.details_url run in
      let name := name_or_default (FailedRun.name run) in
      if bool_decide (dedup_key run ∈ seen_runs)
      then collect_runs rest include_full_logs seen_runs ci_failures
      else
        (let seen_runs := {[dedup_key run]} ∪ seen_runs in
         raw_log_output <-
           match run_id with
           | Some id => fetch_log_or_message id
           | None => hret "No workflow run ID available to fetch logs."
           end ;;
         let log_output := _summarize_ci_log raw_log_output include_full_logs in
         collect_runs rest include_full_logs seen_runs
           (ci_failures ++
              [{| CIFailure.name := Some name;
                  CIFailure.workflow_run_id := run_id;
                  CIFailure.details_url := details_url;
                  CIFailure.workflow_url := FailedRun.workflow_url run;
                  CIFailure.log_output := Some log_output |}]))%host
  end.

(** [collect_ci_failures] from the value [fetch_failed_ci_runs] returned; an
    exception of that first call leaves the function as it is. *)
Definition collect_ci_failures (failed_runs : list FailedRun.t)
    (include_full_logs : bool) : M World (list CIFailure.t) :=
  collect_runs failed_runs include_full_logs ∅ [].

End HostLogs.

(* ===================================================================== *)
(** * The Markdown renderer                                               *)
(* ===================================================================== *)

(** A review comment as the renderer reads it. [path], [user_login] and
    [body] hold what [comment.get("path", "unknown")],
    [comment.get("user", {}).get("login", "unknown")] and
    [comment.get("body", "")] return; [diff_hunk] holds what
    [comment.get("diff_hunk", "")] returns, [None] when the key is there
    with value [None]; the other fields hold what [comment.get(key)] returns. *)
Module ReviewComment.
Record t : Type := {
  path : string;
  line : option Z;
  start_line : option Z;
  original_line : option Z;
  diff_hunk : option string;
  user_login : string;
  body : string;
  url : option string
}.
End ReviewComment.

Module IssueComment.
Record t : Type := {
  user_login : string;
  body : string
}.
End IssueComment.

(** [list.sort(key=...)] and [sorted(...)]: the stable sort. [leb a b] says
    that [a] may stay before [b]. *)
Fixpoint insert_sorted {A} (leb : A -> A -> bool) (x : A) (l : list A) : list A :=
  match l with
  | [] => [x]
  | y :: l' => if leb x y then x :: y :: l' else y :: insert_sorted leb x l'
  end.

Fixpoint stable_sort {A} (leb : A -> A -> bool) (l : list A) : list A :=
  match l with
  | [] => []
  | x :: l' => insert_sorted leb x (stable_sort leb l')
  end.

(** [c.get("line") or c.get("original_line") or 0]. *)
Definition sort_key (c : ReviewComment.t) : Z :=
  if Py.truthy_int (ReviewComment.line c) then default 0 (ReviewComment.line c)
  else if Py.truthy_int (ReviewComment.original_line c)
       then default 0 (ReviewComment.original_line c)
       else 0.

(** [comments_by_file.setdefault(file_path, []).append(comment)] on a dict
    kept as the list of its items in insertion order. *)
Fixpoint setdefault_append (file_path : string) (comment : ReviewComment.t)
    (comments_by_file : list (string * list ReviewComment.t))
    : list (string * list ReviewComment.t) :=
  match comments_by_file with
  | [] => [(file_path, [comment])]
  | (p, cs) :: rest =>
      if String.eqb p file_path then (p, cs ++ [comment]) :: rest
      else (p, cs) :: setdefault_append file_path comment rest
  end.

Definition group_by_file (review_comments : list ReviewComment.t)
    : list (string * list ReviewComment.t) :=
  fold_left (fun by_file c => setdefault_append (ReviewComment.path c) c by_file)
            review_comments [].

(** [sorted(comments_by_file.items())] with each list sorted by [sort_key]:
    the file sections in the order and with the content they are rendered. *)
Definition key_leb (a b : ReviewComment.t) : bool := sort_key a <=? sort_key b.

Definition item_leb (a b : string * list ReviewComment.t) : bool :=
  negb (Py.str_lt (fst b) (fst a)).

Definition file_sections (review_comments : list ReviewComment.t)
    : list (string * list ReviewComment.t) :=
  map (fun item => (fst item, stable_sort key_leb (snd item)))
      (stable_sort item_leb (group_by_file review_comments)).

(** The line reference of one comment. *)
Definition line_ref (c : ReviewComment.t) : string :=
  let line := ReviewComment.line c in
  let start_line := ReviewComment.start_line c in
  if Py.truthy_int start_line && Py.truthy_int line
     && negb (bool_decide (start_line = line))
  then "**Lines " +:+ Py.str_int (default 0 start_line) +:+ "-"
       +:+ Py.str_int (default 0 line) +:+ "**"
  else if Py.truthy_int line
       then "**Line " +:+ Py.str_int (default 0 line) +:+ "**"
       else "**Position in diff**".

(** The lines one review comment adds to [output]; [.strip()] of a
    [diff_hunk] that is [None] raises. *)
Definition render_review_comment (c : ReviewComment.t) : outcome (list string) :=
  match ReviewComment.diff_hunk c with
  | None => Raise AttributeError
  | Some raw =>
      let user := ReviewComment.user_login c in
      let body := Py.strip (ReviewComment.body c) in
      let diff_hunk := Py.strip raw in
      Ok (["#### " +:+ line_ref c +:+ " (@" +:+ user +:+ ")" +:+ LF]
          ++ (if negb (String.eqb diff_hunk "")
              then ["**Code context:**"; "```diff"; diff_hunk; "```" +:+ LF]
              else [])
          ++ ["**Comment:**"; body; ""])
  end.

Fixpoint render_review_comments (cs : list ReviewComment.t) : outcome (list string) :=
  match cs with
  | [] => Ok []
  | c :: rest =>
      (here <- render_review_comment c ;;
       there <- render_review_comments rest ;;
       Ok (here ++ there))%outcome
  end.

Fixpoint render_file_sections (sections : list (string * list ReviewComment.t))
    : outcome (list string) :=
  match sections with
  | [] => Ok []
  | (file_path, file_comments) :: rest =>
      (here <- render_review_comments file_comments ;;
       there <- render_file_sections rest ;;
       Ok ([LF +:+ "### File: `" +:+ file_path +:+ "`" +:+ LF] ++ here ++ there))%outcome
  end.

Definition render_issue_comment (c : IssueComment.t) : list string :=
  ["### @" +:+ IssueComment.user_login c +:+ LF; Py.strip (IssueComment.body c); ""].

Definition render_ci_failure (failure : CIFailure.t) : list string :=
  let name := name_or_default (CIFailure.name failure) in
  let run_label :=
    match CIFailure.workflow_run_id failure with
    | Some run_id => name +:+ " (Run ID " +:+ Py.str_int run_id +:+ ")"
    | None => name
    end in
  let details_url := CIFailure.details_url failure in
  let log_output :=
    Py.rstrip (if Py.truthy_str (CIFailure.log_output failure)
               then Py.str_opt (CIFailure.log_output failure) else "") in
  ["### " +:+ run_label]
  ++ (if Py.truthy_str details_url
      then ["[Details](" +:+ Py.str_opt details_url +:+ ")"] else [])
  ++ (if negb (String.eqb log_output "")
      then ["```"; log_output; "```" +:+ LF]
      else ["_No logs available._" +:+ LF]).

(** Truth value of a list and of a [list | None]. *)
Definition nonempty {A} (l : list A) : bool :=
  match l with [] => false | _ => true end.

Definition format_comments_as_markdown
    (review_comments : list ReviewComment.t)
    (issue_comments : list IssueComment.t)
    (owner repo pr_number : string)
    (ci_failures : option (list CIFailure.t)) : outcome string :=
  (let output := ["# PR Comments: " +:+ owner +:+ "/" +:+ repo +:+ "#" +:+ pr_number +:+ LF] in
   let output :=
     if nonempty issue_comments
     then output ++ ["## General PR Comments" +:+ LF]
                 ++ concat (map render_issue_comment issue_comments)
     else output in
   output <-
     (if nonempty review_comments
      then sections <- render_file_sections (file_sections review_comments) ;;
           Ok (output ++ ["## Inline Code Review Comments" +:+ LF] ++ sections)
      else Ok output) ;;
   let failures := default [] ci_failures in
   let output :=
     if nonempty failures
     then output ++ ["## CI Failures" +:+ LF] ++ concat (map render_ci_failure failures)
     else output in
   if negb (nonempty issue_comments) && negb (nonempty review_comments)
      && negb (nonempty failures)
   then Ok ("No comments found on this PR." +:+ LF)
   else Ok (Py.join LF output))%outcome.

(* ===================================================================== *)
(** * Hosts and payloads used to run the code                             *)
(* ===================================================================== *)

Definition init {World} (w : World) : hstate World := {| world := w; calls := [] |}.

Definition page_info (has_next : bool) (cursor : json) : json :=
  JDict [("hasNextPage", JBool has_next); ("endCursor", cursor)].

(** The envelope of one review-threads reply. *)
Definition envelope (edges : list json) (has_next : bool) (cursor : json) : json :=
  JDict [("data", JDict [("repository", JDict [("pullRequest",
    JDict [("reviewThreads",
      JDict [("pageInfo", page_info has_next cursor); ("edges", JList edges)])])])])].

Definition comment_node (login body : string) : json :=
  JDict [("author", JDict [("login", JStr login)]); ("body", JStr body);
         ("url", JStr "http://..."); ("diffHunk", JStr "@@ @@")].

(** One review-thread edge with its nested first page of comments. *)
Definition thread_edge (resolved : bool) (path : string) (line : Z)
    (nodes : list json) (has_next : bool) (cursor : json) : json :=
  JDict [("node",
    JDict [("isResolved", JBool resolved); ("path", JStr path);
           ("line", JInt line); ("startLine", JInt line);
           ("comments", JDict [("pageInfo", page_info has_next cursor);
                               ("nodes", JList nodes)])])].

(** The command line of a review-threads request and of a thread-comments
    request. *)
Definition threads_call (owner repo pr_number : string) (after : option json)
    : graphql_call :=
  {| gq_owner := owner; gq_repo := repo; gq_pr := pr_number;
     gq_threads_after := after; gq_comments_after := None;
     gq_query := GRAPHQL_REVIEW_COMMENTS_QUERY |}.

Definition comments_call (owner repo pr_number : string) (after : option json)
    : graphql_call :=
  {| gq_owner := owner; gq_repo := repo; gq_pr := pr_number;
     gq_threads_after := None; gq_comments_after := after;
     gq_query := GRAPHQL_REVIEW_COMMENTS_QUERY |}.

(** A host that plays a fixed sequence of replies, whatever is asked. *)
Module Scripted.

Definition gh_api_graphql (w : list graphql_reply) (c : graphql_call)
    : graphql_reply * list graphql_reply :=
  match w with
  | reply :: w' => (reply, w')
  | [] => (CalledProcessError "no reply left", [])
  end.

Definition gh_run_view (w : list run_view_reply) (run_id : string)
    : run_view_reply * list run_view_reply :=
  match w with
  | reply :: w' => (reply, w')
  | [] => (RunViewFailed "no reply left", [])
  end.

(** One unresolved thread of three comment pages: alice (more, cursor c1),
    bob (more, cursor c2), carol (last). *)
Definition three_comment_pages : list graphql_reply :=
  [Stdout (envelope [thread_edge false "app.py" 42 [comment_node "alice" "first"]
                       true (JStr "c1")] false JNull);
   Stdout (envelope [thread_edge false "app.py" 42 [comment_node "bob" "second"]
                       true (JStr "c2")] false JNull);
   Stdout (envelope [thread_edge false "app.py" 42 [comment_node "carol" "third"]
                       false JNull] false JNull)].

End Scripted.

(** A host that answers by cursor, as the API does: the same request always
    gets the same page. One unresolved thread of three comment pages; the
    cursor chain of its comments is c1, c2, end. *)
Module Paged.

Definition gh_api_graphql (w : unit) (c : graphql_call) : graphql_reply * unit :=
  (match gq_comments_after c with
   | Some (JStr "c1") =>
       Stdout (envelope [thread_edge false "app.py" 42 [comment_node "bob" "second"]
                           true (JStr "c2")] false JNull)
   | Some (JStr "c2") =>
       Stdout (envelope [thread_edge false "app.py" 42 [comment_node "carol" "third"]
                           false JNull] false JNull)
   | _ =>
       Stdout (envelope [thread_edge false "app.py" 42 [comment_node "alice" "first"]
                           true (JStr "c1")] false JNull)
   end, tt).

End Paged.

(** The review comment [fetch_review_comments_graphql] builds for a comment
    of the thread of the two hosts above. *)
Definition app_py_comment (login body : string) : json :=
  JDict [("path", JStr "app.py"); ("line", JInt 42); ("start_line", JInt 42);
         ("original_line", JInt 42); ("diff_hunk", JStr "@@ @@");
         ("user", JDict [("login", JStr login)]);
         ("body", JStr body); ("url", JStr "http://...")].

(** A thread edge whose [isResolved] flag is [true]. *)
Definition is_resolved (edge : json) : bool :=
  match edge with
  | JDict e =>
      match Json.assoc "node" e with
      | Some (JDict node) =>
          match Json.assoc "isResolved" node with
          | Some (JBool true) => true
          | _ => false
          end
      | _ => false
      end
  | _ => false
  end.

(** The thread of the [Paged] host as the edge loop reads it. *)
Definition paged_thread : json :=
  JDict [("isResolved", JBool false); ("path", JStr "app.py");
         ("line", JInt 42); ("startLine", JInt 42);
         ("comments", JDict [("pageInfo", page_info true (JStr "c1"));
                             ("nodes", JList [comment_node "alice" "first"])])].

(** ** Reading the lists of the collector and of the renderer *)

Definition count {A} (p : A -> bool) (l : list A) : nat := length (List.filter p l).

(** A [gh run view <run_id> --log-failed] call. *)
Definition is_run_view (run_id : string) (c : call) : bool :=
  match c with
  | RunView arg => String.eqb arg run_id
  | GraphQL _ => false
  end.

Definition has_run_id (run_id : Z) (f : CIFailure.t) : bool :=
  bool_decide (CIFailure.workflow_run_id f = Some run_id).

(** An entry without run id that carries this name and details URL. *)
Definition has_name_and_url (name : string) (details_url : option string)
    (f : CIFailure.t) : bool :=
  bool_decide (CIFailure.workflow_run_id f = None
               /\ CIFailure.name f = Some name
               /\ CIFailure.details_url f = details_url).

(** The runs that are not skipped: the first one of every dedup key that is
    not in [seen] already. *)
Fixpoint first_occurrences (seen : gset string) (runs : list FailedRun.t)
    : list FailedRun.t :=
  match runs with
  | [] => []
  | run :: rest =>
      if bool_decide (dedup_key run ∈ seen) then first_occurrences seen rest
      else run :: first_occurrences ({[dedup_key run]} ∪ seen) rest
  end.

(** The entry of a run, its log apart. *)
Definition entry_of (run : FailedRun.t) (f : CIFailure.t) : Prop :=
  CIFailure.name f = Some (name_or_default (FailedRun.name run))
  /\ CIFailure.workflow_run_id f = FailedRun.workflow_run_id run
  /\ CIFailure.details_url f = FailedRun.details_url run
  /\ CIFailure.workflow_url f = FailedRun.workflow_url run.

(** The log calls a list of runs asks for, one per run with an id. *)
Definition log_calls (runs : list FailedRun.t) : list call :=
  omap (fun run => (fun id => RunView (Py.str_int id)) <$> FailedRun.workflow_run_id run) runs.

Definition NO_RUN_ID_MESSAGE : string := "No workflow run ID available to fetch logs.".

Fixpoint has_char (c : ascii) (s : string) : bool :=
  match s with
  | EmptyString => false
  | String c' s' => Ascii.eqb c' c || has_char c s'
  end.

(** A line that holds the marker, whatever the case of its letters. *)
Definition line_has (marker line : string) : bool :=
  Py.contains marker (Py.lower line).

(** [i] is the index of the first line that holds the marker. *)
Definition first_line_with (marker : string) (lines : list string) (i : nat) : Prop :=
  (exists line, nth_error lines i = Some line /\ line_has marker line = true)
  /\ (forall j line, (j < i)%nat -> nth_error lines j = Some line ->
                     line_has marker line = false).

Definition no_line_with (marker : string) (lines : list string) : Prop :=
  Forall (fun line => line_has marker line = false) lines.

(** The lines from index [i] to the end, joined and trimmed. *)
Definition lines_from (i : nat) (lines : list string) : string :=
  Py.strip (Py.join LF (skipn i lines)).


(** [comments_by_file.get(p)] and the value a list is stored under. *)
Fixpoint file_comments (p : string) (by_file : list (string * list ReviewComment.t))
    : option (list ReviewComment.t) :=
  match by_file with
  | [] => None
  | (q, cs) :: rest => if String.eqb q p then Some cs else file_comments p rest
  end.

Definition some_if_nonempty {A} (l : list A) : option (list A) :=
  match l with [] => None | _ => Some l end.

Definition in_file (p : string) (c : ReviewComment.t) : bool :=
  String.eqb (ReviewComment.path c) p.

(** A dict of [fetch_review_comments_graphql] read at the types of the data
    model; [None] when a value has another type. *)
Definition read_int (v : option json) : option (option Z) :=
  match v with
  | None | Some JNull => Some None
  | Some (JInt n) => Some (Some n)
  | _ => None
  end.

Definition read_str (default : option string) (v : option json) : option (option string) :=
  match v with
  | None => Some default
  | Some JNull => Some None
  | Some (JStr s) => Some (Some s)
  | _ => None
  end.

Definition read_review_comment (d : json) : option ReviewComment.t :=
  match d with
  | JDict f =>
      path ← read_str (Some "unknown") (Json.assoc "path" f) ≫= id;
      line ← read_int (Json.assoc "line" f);
      start_line ← read_int (Json.assoc "start_line" f);
      original_line ← read_int (Json.assoc "original_line" f);
      diff_hunk ← read_str (Some "") (Json.assoc "diff_hunk" f);
      user_login ←
        match Json.assoc "user" f with
        | None => Some "unknown"
        | Some (JDict u) => read_str (Some "unknown") (Json.assoc "login" u) ≫= id
        | _ => None
        end;
      body ← read_str (Some "") (Json.assoc "body" f) ≫= id;
      url ← read_str None (Json.assoc "url" f);
      Some {| ReviewComment.path := path; ReviewComment.line := line;
              ReviewComment.start_line := start_line;
              ReviewComment.original_line := original_line;
              ReviewComment.diff_hunk := diff_hunk;
              ReviewComment.user_login := user_login;
              ReviewComment.body := body; ReviewComment.url := url |}
  | _ => None
  end.

(** The text that stands for the log of a run with an id: the log itself, or
    the message made from the error of the failed call. *)
Definition raw_log (reply : run_view_reply) (run_id : Z) : string :=
  match reply with
  | RunViewStdout text => text
  | RunViewFailed stderr =>
      "Failed to fetch logs for run " +:+ Py.str_int run_id +:+ ": "
      +:+ "gh run view failed: " +:+ stderr
  end.

(** A run is the run of this id, and is the run without id of this name and
    details URL. *)
Definition run_has_id (run_id : Z) (run : FailedRun.t) : bool :=
  bool_decide (FailedRun.workflow_run_id run = Some run_id).

Definition run_has_name_and_url (name : string) (details_url : option string)
    (run : FailedRun.t) : bool :=
  bool_decide (FailedRun.workflow_run_id run = None
               /\ name_or_default (FailedRun.name run) = name
               /\ FailedRun.details_url run = details_url).

(** Two check runs of workflow run 10, one check without a workflow run. *)
Definition ci_run (name : string) (run_id : option Z) : FailedRun.t :=
  {| FailedRun.name := Some name;
     FailedRun.details_url := Some "https://example.com/ci";
     FailedRun.workflow_run_id := run_id;
     FailedRun.workflow_url := None |}.

Definition sample_runs : list FailedRun.t :=
  [ci_run "CI" (Some 10); ci_run "External Check" None; ci_run "CI" (Some 10)].

(** Three logs: the pytest summary in the second line, a failed line only,
    no marker at all. *)
Definition summary_log : string :=
  "setup step" +:+ LF +:+ "==== Short Test Summary Info ====" +:+ LF
  +:+ "FAILED tests/test_a.py" +:+ LF.

Definition failed_log : string :=
  "info" +:+ LF +:+ "another line" +:+ LF
  +:+ "FAILED test_sample::test_a" +:+ LF +:+ "Trailing".

Definition plain_log : string := "line1" +:+ LF +:+ "line2".

(** A review comment of one line, without code context. *)
Definition line_comment (path : string) (line : Z) : ReviewComment.t :=
  {| ReviewComment.path := path; ReviewComment.line := Some line;
     ReviewComment.start_line := None; ReviewComment.original_line := Some line;
     ReviewComment.diff_hunk := Some ""; ReviewComment.user_login := "reviewer1";
     ReviewComment.body := "note"; ReviewComment.url := None |}.

(** The command line of the status-check request. *)
Definition ci_failures_call (owner repo pr_number : string) : graphql_call :=
  {| gq_owner := owner; gq_repo := repo; gq_pr := pr_number;
     gq_threads_after := None; gq_comments_after := None;
     gq_query := GRAPHQL_CI_FAILURES_QUERY |}.

(* ===================================================================== *)
(** * The command line side: PR paths                                     *)
(* ===================================================================== *)

Module PyText.

(** [s.lstrip(c)], [s.rstrip(c)], [s.strip(c)] for a one-character [c]. *)
Fixpoint lstrip_char (c : ascii) (s : string) : string :=
  match s with
  | EmptyString => EmptyString
  | String x s' => if Ascii.eqb x c then lstrip_char c s' else s
  end.

Fixpoint rstrip_char (c : ascii) (s : string) : string :=
  match s with
  | EmptyString => EmptyString
  | String x s' =>
      match rstrip_char c s' with
      | EmptyString => if Ascii.eqb x c then EmptyString else String x EmptyString
      | r => String x r
      end
  end.

Definition strip_char (c : ascii) (s : string) : string :=
  lstrip_char c (rstrip_char c s).

(** [s.split(c)] for a one-character separator: the pieces between the
    separators, empty ones included; the empty string gives one empty piece. *)
Fixpoint split_char (c : ascii) (s : string) : list string :=
  match s with
  | EmptyString => [EmptyString]
  | String x s' =>
      if Ascii.eqb x c then EmptyString :: split_char c s'
      else
        match split_char c s' with
        | [] => [String x EmptyString]
        | piece :: pieces => String x piece :: pieces
        end
  end.

(** [c * n] for a one-character string. *)
Fixpoint repeat_char (c : ascii) (n : nat) : string :=
  match n with
  | O => EmptyString
  | S n' => String c (repeat_char c n')
  end.

End PyText.

(** What a function of the command line side gives: a value, or one of the
    two exceptions raised there. *)
Inductive cli_outcome (A : Type) : Type :=
| Returned (a : A)
| ValueError (msg : string)
| ArgumentTypeError (msg : string).
Arguments Returned {A} a.
Arguments ValueError {A} msg.
Arguments ArgumentTypeError {A} msg.

Definition parse_pr_path (pr_path : string) : cli_outcome (string * string * string) :=
  let parts := PyText.split_char "/" (PyText.strip_char "/" pr_path) in
  let invalid :=
    ValueError ("Invalid PR path format: '" +:+ pr_path
                +:+ "'. Expected format: 'owner/repo/pull/number'") in
  match parts with
  | [owner; repo; third; pr_number] =>
      if String.eqb third "pull" then Returned (owner, repo, pr_number) else invalid
  | _ => invalid
  end.

(** The path [owner/repo/pull/number]. *)
Definition pr_path_of (owner repo pr_number : string) : string :=
  owner +:+ "/" +:+ repo +:+ "/" +:+ "pull" +:+ "/" +:+ pr_number.

(* ===================================================================== *)
(** * Shapes of payloads                                                  *)
(* ===================================================================== *)

(** [v[k1][k2]...]. *)
Fixpoint dig (v : json) (keys : list string) : outcome json :=
  match keys with
  | [] => Ok v
  | k :: keys' => (x <- Json.item v k ;; dig x keys')%outcome
  end.

(** A payload that is [None], a [bool] or an [int]. *)
Definition is_scalar (v : json) : bool :=
  match v with
  | JNull | JBool _ | JInt _ => true
  | _ => false
  end.

(** A key that is missing from a dict, or holds a falsy value. *)
Definition absent_or_falsy (k : string) (fields : list (string * json)) : bool :=
  match Json.assoc k fields with
  | None => true
  | Some v => negb (Json.truthy v)
  end.

Definition REVIEW_THREADS_PATH : list string :=
  ["data"; "repository"; "pullRequest"; "reviewThreads"].

Definition COMMITS_PATH : list string :=
  ["data"; "repository"; "pullRequest"; "commits"].

(* ===================================================================== *)
(** * Threads and pages as data                                           *)
(* ===================================================================== *)

(** A review thread with the comments of its nested page, each a login and
    a body. *)
Record thread_data : Type := {
  td_resolved : bool;
  td_path : string;
  td_line : Z;
  td_comments : list (string * string)
}.

Definition nodes_of (comments : list (string * string)) : list json :=
  map (fun lb => comment_node (fst lb) (snd lb)) comments.

(** The edge of a thread whose nested page is its only one. *)
Definition edge_of (t : thread_data) : json :=
  thread_edge (td_resolved t) (td_path t) (td_line t) (nodes_of (td_comments t))
    false JNull.

(** The review comment built for a comment of a thread at [path] and [line]. *)
Definition comment_dict (path : string) (line : Z) (login body : string) : json :=
  JDict [("path", JStr path); ("line", JInt line); ("start_line", JInt line);
         ("original_line", JInt line); ("diff_hunk", JStr "@@ @@");
         ("user", JDict [("login", JStr login)]);
         ("body", JStr body); ("url", JStr "http://...")].

Definition dicts_of (path : string) (line : Z) (comments : list (string * string))
    : list json :=
  map (fun lb => comment_dict path line (fst lb) (snd lb)) comments.

Definition thread_dicts (t : thread_data) : list json :=
  if td_resolved t then [] else dicts_of (td_path t) (td_line t) (td_comments t).

Definition page_dicts (threads : list thread_data) : list json :=
  concat (map thread_dicts threads).

(** The replies of a host that serves the pages in order, each with its end
    cursor; every page but the last reports a next page. *)
Fixpoint page_replies (pages : list (list thread_data * json)) : list graphql_reply :=
  match pages with
  | [] => []
  | (threads, cursor) :: rest =>
      Stdout (envelope (map edge_of threads)
                (match rest with [] => false | _ => true end) cursor)
      :: page_replies rest
  end.

(** The review-threads requests that follow the first one: one per page that
    reports a next page, with the cursor of that page. *)
Fixpoint next_calls (owner repo pr_number : string)
    (pages : list (list thread_data * json)) : list call :=
  match pages with
  | [] => []
  | (threads, cursor) :: rest =>
      match rest with
      | [] => []
      | _ => GraphQL (threads_call owner repo pr_number (cursor_field cursor))
             :: next_calls owner repo pr_number rest
      end
  end.

(** A host without state whose every reply is one page of one thread that
    reports a next page and gives no cursor. *)
Module Cursorless.

Definition page : json :=
  envelope [edge_of {| td_resolved := false; td_path := "app.py"; td_line := 42;
                       td_comments := [("alice", "first")] |}] true JNull.

Definition gh_api_graphql (w : unit) (c : graphql_call) : graphql_reply * unit :=
  (Stdout page, tt).

End Cursorless.

(* ===================================================================== *)
(** * Status checks as data                                               *)
(* ===================================================================== *)

(** A node of [statusCheckRollup.contexts], as the CI query selects it: a
    check run with its name, conclusion, details URL and the id and URL of
    its workflow run, if it has one; or a commit status. *)
Inductive rollup_context : Type :=
  | CheckRun (name : string) (conclusion : option string) (details_url : string)
             (workflow_run : option (Z * string))
  | StatusContext (context state target_url : string).

Definition context_of (c : rollup_context) : json :=
  match c with
  | CheckRun name conclusion details_url workflow_run =>
      JDict [("__typename", JStr "CheckRun"); ("name", JStr name);
             ("conclusion", match conclusion with Some s => JStr s | None => JNull end);
             ("detailsUrl", JStr details_url); ("databaseId", JInt 1);
             ("checkSuite",
              JDict [("workflowRun",
                      match workflow_run with
                      | Some (run_id, url) =>
                          JDict [("databaseId", JInt run_id); ("url", JStr url)]
                      | None => JNull
                      end)])]
  | StatusContext context state target_url =>
      JDict [("__typename", JStr "StatusContext"); ("context", JStr context);
             ("state", JStr state); ("targetUrl", JStr target_url);
             ("description", JNull)]
  end.

(** A check run whose conclusion is [FAILURE]. *)
Definition is_failed_check_run (c : rollup_context) : bool :=
  match c with
  | CheckRun _ (Some conclusion) _ _ => String.eqb conclusion "FAILURE"
  | _ => false
  end.

(** The entry reported for a check run. *)
Definition failed_run_dict (c : rollup_context) : json :=
  match c with
  | CheckRun name _ details_url workflow_run =>
      JDict [("name", JStr name); ("details_url", JStr details_url);
             ("workflow_run_id",
              match workflow_run with Some (run_id, _) => JInt run_id | None => JNull end);
             ("workflow_url",
              match workflow_run with Some (_, url) => JStr url | None => JNull end)]
  | StatusContext _ _ _ => JNull
  end.

Definition commit_node (contexts : list rollup_context) : json :=
  JDict [("commit",
          JDict [("oid", JStr "abc123");
                 ("statusCheckRollup",
                  JDict [("state", JStr "FAILURE");
                         ("contexts", JDict [("nodes", JList (map context_of contexts))])])])].

(** The payload of the CI query for commits with these status checks. *)
Definition ci_envelope (commits : list (list rollup_context)) : json :=
  JDict [("data", JDict [("repository", JDict [("pullRequest",
    JDict [("commits", JDict [("nodes", JList (map commit_node commits))])])])])].

(** A run without id under this name and details URL. *)
Definition run_without_id (name details_url : string) : FailedRun.t :=
  {| FailedRun.name := Some name;
     FailedRun.details_url := Some details_url;
     FailedRun.workflow_run_id := None;
     FailedRun.workflow_url := None |}.

(** The first line of every text the renderer builds from comments. *)
Definition title_line (owner repo pr_number : string) : string :=
  "# PR Comments: " +:+ owner +:+ "/" +:+ repo +:+ "#" +:+ pr_number +:+ LF.

Definition EMPTY_SIGNAL : string := "No comments found on this PR." +:+ LF.

(** The replies of a host that serves these pages, each reporting a next
    page, and the review-threads requests that their cursors lead to. *)
Definition open_page_replies (pages : list (list thread_data * json))
    : list graphql_reply :=
  map (fun page => Stdout (envelope (map edge_of (fst page)) true (snd page))) pages.

Definition page_calls (owner repo pr_number : string)
    (pages : list (list thread_data * json)) : list call :=
  map (fun page => GraphQL (threads_call owner repo pr_number (cursor_field (snd page))))
      pages.

(* ===================================================================== *)
(** * The dedup key and the sort key, as read and as claimed              *)
(* ===================================================================== *)

(** The text the code builds for a run without id: the name, a colon and
    the details URL. *)
Definition run_key_text (run : FailedRun.t) : string :=
  name_or_default (FailedRun.name run) +:+ ":" +:+ Py.str_opt (FailedRun.details_url run).

(** An entry without run id whose name, a colon and details URL read [key]. *)
Definition has_key_text (key : string) (f : CIFailure.t) : bool :=
  bool_decide (CIFailure.workflow_run_id f = None
               /\ Py.str_opt (CIFailure.name f) +:+ ":"
                  +:+ Py.str_opt (CIFailure.details_url f) = key).

Definition run_has_key_text (key : string) (run : FailedRun.t) : bool :=
  bool_decide (FailedRun.workflow_run_id run = None /\ run_key_text run = key).

(** The key in the words of the specification: the run id when there is
    one, else the pair of name and details URL. *)
Definition claimed_key (run : FailedRun.t) : Z + (string * option string) :=
  match FailedRun.workflow_run_id run with
  | Some run_id => inl run_id
  | None => inr (name_or_default (FailedRun.name run), FailedRun.details_url run)
  end.

(** The runs that a deduplication by [claimed_key] keeps. *)
Fixpoint claimed_first_occurrences (seen : list (Z + (string * option string)))
    (runs : list FailedRun.t) : list FailedRun.t :=
  match runs with
  | [] => []
  | run :: rest =>
      if bool_decide (claimed_key run ∈ seen) then claimed_first_occurrences seen rest
      else run :: claimed_first_occurrences (claimed_key run :: seen) rest
  end.

(** Two checks without workflow run whose names and details URLs differ and
    whose key texts are the same. *)
Definition colon_runs : list FailedRun.t :=
  [run_without_id "lint:py" "https://ci.example.com/1";
   run_without_id "lint" "py:https://ci.example.com/1"].








(* ===================================================================== *)
(** * Properties of the pagination                                        *)
(* ===================================================================== *)

Section Pagination.

Context {World : Type}.
Variable gh_api_graphql : World -> graphql_call -> graphql_reply * World.


(** A resolved edge is left by [continue]: nothing is appended, nothing is
    fetched. *)
Lemma review_thread_edge_resolved fuel owner repo pr_number edge review_comments st :
  is_resolved edge = true ->
  review_thread_edge gh_api_graphql fuel owner repo pr_number edge review_comments st
  = (Ok review_comments, st).
Proof.
  unfold is_resolved. intros H.
  destruct edge as [| | | | |e]; try discriminate.
  destruct (Json.assoc "node" e) as [node|] eqn:Hnode; try discriminate.
  destruct node as [| | | | |node]; try discriminate.
  destruct (Json.assoc "isResolved" node) as [r|] eqn:Hr; try discriminate.
  destruct r as [|[|]| | | |]; try discriminate.
  unfold review_thread_edge, hbind, lift. simpl. rewrite Hnode.
  destruct node as [|kv node']; [discriminate|].
  change (Json.or_else (JDict (kv :: node')) (JDict [])) with (JDict (kv :: node')).
  unfold Json.get. rewrite Hr. reflexivity.
Qed.


End Pagination.

(** ** Runs of the two hosts *)

Lemma scripted_three_pages_run fuel :
  fetch_review_comments_graphql Scripted.gh_api_graphql (S (S (S fuel)))
    "owner" "repo" "10" (init Scripted.three_comment_pages)
  = (Ok [app_py_comment "alice" "first"; app_py_comment "bob" "second";
         app_py_comment "alice" "first"; app_py_comment "carol" "third"],
     {| world := [];
        calls := [GraphQL (threads_call "owner" "repo" "10" None);
                  GraphQL (comments_call "owner" "repo" "10" (Some (JStr "c1")));
                  GraphQL (comments_call "owner" "repo" "10" (Some (JStr "c1")))] |}).
Proof. reflexivity. Qed.

Lemma paged_round fuel review_comments cs :
  thread_comments_loop Paged.gh_api_graphql (S fuel) "owner" "repo" "10"
    paged_thread (JStr "app.py") (JInt 42) (JInt 42) review_comments
    {| world := tt; calls := cs |}
  = thread_comments_loop Paged.gh_api_graphql fuel "owner" "repo" "10"
      paged_thread (JStr "app.py") (JInt 42) (JInt 42)
      ((review_comments ++ [app_py_comment "alice" "first"])
         ++ [app_py_comment "bob" "second"])
      {| world := tt;
         calls := cs ++ [GraphQL (comments_call "owner" "repo" "10" (Some (JStr "c1")))] |}.
Proof. reflexivity. Qed.

Lemma paged_thread_never_left fuel :
  forall review_comments cs,
    thread_comments_loop Paged.gh_api_graphql fuel "owner" "repo" "10"
      paged_thread (JStr "app.py") (JInt 42) (JInt 42) review_comments
      {| world := tt; calls := cs |}
    = (OutOfFuel,
       {| world := tt;
          calls := cs ++ repeat (GraphQL (comments_call "owner" "repo" "10"
                                            (Some (JStr "c1")))) fuel |}).
Proof.
  induction fuel as [|fuel IH]; intros acc cs.
  - simpl. rewrite app_nil_r. reflexivity.
  - rewrite paged_round, IH. simpl repeat. rewrite <- app_assoc. reflexivity.
Qed.

Lemma paged_edge fuel review_comments st :
  review_thread_edge Paged.gh_api_graphql fuel "owner" "repo" "10"
    (thread_edge false "app.py" 42 [comment_node "alice" "first"] true (JStr "c1"))
    review_comments st
  = thread_comments_loop Paged.gh_api_graphql fuel "owner" "repo" "10"
      paged_thread (JStr "app.py") (JInt 42) (JInt 42) review_comments st.
Proof. reflexivity. Qed.

Lemma paged_run fuel :
  fetch_review_comments_graphql Paged.gh_api_graphql (S fuel) "owner" "repo" "10" (init tt)
  = (OutOfFuel,
     {| world := tt;
        calls := GraphQL (threads_call "owner" "repo" "10" None)
                 :: repeat (GraphQL (comments_call "owner" "repo" "10"
                                       (Some (JStr "c1")))) fuel |}).
Proof.
  unfold fetch_review_comments_graphql, init.
  cbn -[thread_comments_loop review_thread_edge].
  unfold hbind. rewrite paged_edge, paged_thread_never_left. reflexivity.
Qed.

(** ** Review-threads pages *)

Section ThreadsPages.

Context {World : Type}.
Variable gh_api_graphql : World -> graphql_call -> graphql_reply * World.

(** A well-formed reply is returned as its edges, flag and cursor. *)
Lemma fetch_review_threads_page_envelope owner repo pr_number after
    edges has_next cursor st w' :
  gh_api_graphql (world st) (threads_call owner repo pr_number (cursor_field after))
  = (Stdout (envelope edges has_next cursor), w') ->
  _fetch_review_threads_page gh_api_graphql owner repo pr_number after st
  = (Ok (JList edges, JBool has_next, cursor),
     {| world := w';
        calls := calls st
                 ++ [GraphQL (threads_call owner repo pr_number (cursor_field after))] |}).
Proof.
  intros H. unfold _fetch_review_threads_page, hbind, run_graphql.
  unfold threads_call in H. rewrite H.
  destruct edges; reflexivity.
Qed.


(** One round of the outer loop: the edges of the page are processed, and
    when the page reports more, the next round starts from the cursor the
    page returned. *)
Lemma review_threads_loop_round fuel owner repo pr_number after
    edges has_next cursor review_comments st w' :
  gh_api_graphql (world st) (threads_call owner repo pr_number (cursor_field after))
  = (Stdout (envelope edges has_next cursor), w') ->
  review_threads_loop gh_api_graphql (S fuel) owner repo pr_number after review_comments st
  = hbind (review_thread_edges gh_api_graphql fuel owner repo pr_number edges
             review_comments)
          (fun review_comments =>
             if has_next
             then review_threads_loop gh_api_graphql fuel owner repo pr_number
                    cursor review_comments
             else hret review_comments)
          {| world := w';
             calls := calls st
                      ++ [GraphQL (threads_call owner repo pr_number
                                     (cursor_field after))] |}.
Proof.
  intros H. simpl review_threads_loop. unfold hbind at 1.
  rewrite (fetch_review_threads_page_envelope owner repo pr_number after
             edges has_next cursor st w' H).
  unfold hbind, lift. simpl Json.iter. cbv beta iota.
  destruct has_next; reflexivity.
Qed.

End ThreadsPages.



(** C1. On the thread of three comment pages (alice with cursor c1, bob with
    cursor c2, carol) the second thread-comments request is made with c1
    again, not with the cursor c2 the first one returned, and the comment of
    the nested first page is in the result twice. *)
Theorem comment_pagination_replays_first_page fuel :
  fetch_review_comments_graphql Scripted.gh_api_graphql (S (S (S fuel)))
    "owner" "repo" "10" (init Scripted.three_comment_pages)
  = (Ok [app_py_comment "alice" "first"; app_py_comment "bob" "second";
         app_py_comment "alice" "first"; app_py_comment "carol" "third"],
     {| world := [];
        calls := [GraphQL (threads_call "owner" "repo" "10" None);
                  GraphQL (comments_call "owner" "repo" "10" (Some (JStr "c1")));
                  GraphQL (comments_call "owner" "repo" "10" (Some (JStr "c1")))] |}).
Proof. exact (scripted_three_pages_run fuel). Qed.

(** C2. Against the host that answers by cursor, whose comment cursors end
    after c1 and c2, no amount of fuel lets [fetch_review_comments_graphql]
    return: the inner loop asks for the page after c1 in every round. *)
Theorem comment_pagination_never_returns :
  (forall fuel,
      fst (fetch_review_comments_graphql Paged.gh_api_graphql fuel
             "owner" "repo" "10" (init tt)) = OutOfFuel)
  /\ (forall fuel,
         calls (snd (fetch_review_comments_graphql Paged.gh_api_graphql (S fuel)
                       "owner" "repo" "10" (init tt)))
         = GraphQL (threads_call "owner" "repo" "10" None)
           :: repeat (GraphQL (comments_call "owner" "repo" "10" (Some (JStr "c1")))) fuel).
Proof.
  split; intros fuel.
  - destruct fuel as [|fuel]; [reflexivity|]. rewrite paged_run. reflexivity.
  - rewrite paged_run. reflexivity.
Qed.

(** C9. A payload whose top-level [errors] entry is a non-empty array makes
    each of the three GraphQL operations raise [GitHubGraphQLError], whatever
    else the payload holds. *)
Theorem graphql_errors_raise {World : Type}
    (gh_api_graphql : World -> graphql_call -> graphql_reply * World)
    (owner repo pr_number : string) (fields : list (string * json))
    (e : json) (es : list json) :
  Json.assoc "errors" fields = Some (JList (e :: es)) ->
  (forall cursor st w',
      gh_api_graphql (world st) (threads_call owner repo pr_number (cursor_field cursor))
      = (Stdout (JDict fields), w') ->
      _fetch_review_threads_page gh_api_graphql owner repo pr_number cursor st
      = (Raise (GitHubGraphQLError (JList (e :: es))),
         {| world := w';
            calls := calls st ++ [GraphQL (threads_call owner repo pr_number
                                             (cursor_field cursor))] |}))
  /\ (forall cursor st w',
         gh_api_graphql (world st)
           (comments_call owner repo pr_number (cursor_field cursor))
         = (Stdout (JDict fields), w') ->
         _fetch_thread_comments_page gh_api_graphql owner repo pr_number cursor st
         = (Raise (GitHubGraphQLError (JList (e :: es))),
            {| world := w';
               calls := calls st ++ [GraphQL (comments_call owner repo pr_number
                                                (cursor_field cursor))] |}))
  /\ (forall st w',
         gh_api_graphql (world st) (ci_failures_call owner repo pr_number)
         = (Stdout (JDict fields), w') ->
         fetch_failed_ci_runs gh_api_graphql owner repo pr_number st
         = (Raise (GitHubGraphQLError (JList (e :: es))),
            {| world := w';
               calls := calls st ++ [GraphQL (ci_failures_call owner repo pr_number)] |})).
Proof.
  intros Herr.
  assert (Hcheck : Json.check_errors (JDict fields)
                   = Raise (GitHubGraphQLError (JList (e :: es)))).
  { unfold Json.check_errors, Json.has, Json.item. simpl. rewrite Herr. reflexivity. }
  repeat split; intros.
  - unfold _fetch_review_threads_page, hbind, run_graphql.
    match goal with H : gh_api_graphql _ _ = _ |- _ => unfold threads_call in H; rewrite H end.
    unfold lift. rewrite Hcheck. reflexivity.
  - unfold _fetch_thread_comments_page, hbind, run_graphql.
    match goal with H : gh_api_graphql _ _ = _ |- _ => unfold comments_call in H; rewrite H end.
    unfold lift. rewrite Hcheck. reflexivity.
  - unfold fetch_failed_ci_runs, hbind, run_graphql.
    match goal with H : gh_api_graphql _ _ = _ |- _ => unfold ci_failures_call in H; rewrite H end.
    unfold lift. rewrite Hcheck. reflexivity.
Qed.

(** A reply that carries both [data] and [errors]. *)
Lemma graphql_errors_raise_witness :
  let fields := [("data", JDict [("repository", JNull)]);
                 ("errors", JList [JDict [("message", JStr "Not found")]])] in
  Json.assoc "errors" fields = Some (JList [JDict [("message", JStr "Not found")]])
  /\ _fetch_review_threads_page Scripted.gh_api_graphql "owner" "repo" "10" JNull
       (init [Stdout (JDict fields)])
     = (Raise (GitHubGraphQLError (JList [JDict [("message", JStr "Not found")]])),
        {| world := [];
           calls := [GraphQL (threads_call "owner" "repo" "10" None)] |}).
Proof.
  intros fields. split; [reflexivity|].
  apply (proj1 (graphql_errors_raise Scripted.gh_api_graphql "owner" "repo" "10"
                  fields (JDict [("message", JStr "Not found")]) [] eq_refl)
           JNull (init [Stdout (JDict fields)]) []).
  reflexivity.
Defined.

(* ===================================================================== *)
(** * Properties of the stable sort                                       *)
(* ===================================================================== *)

Section StableSort.

Context {A : Type}.
Variable leb : A -> A -> bool.
Hypothesis leb_total : forall a b, leb a b = false -> leb b a = true.
Hypothesis leb_trans : forall a b c, leb a b = true -> leb b c = true -> leb a c = true.

Lemma insert_sorted_perm x l : Permutation (insert_sorted leb x l) (x :: l).
Proof.
  induction l as [|y l IH]; simpl; [reflexivity|].
  destruct (leb x y); [reflexivity|].
  rewrite IH. apply perm_swap.
Qed.

Lemma stable_sort_perm l : Permutation (stable_sort leb l) l.
Proof.
  induction l as [|x l IH]; simpl; [reflexivity|].
  rewrite insert_sorted_perm. constructor. exact IH.
Qed.

Lemma stable_sort_In x l : In x (stable_sort leb l) <-> In x l.
Proof.
  split; apply Permutation_in; [|symmetry]; apply stable_sort_perm.
Qed.





End StableSort.

(* ===================================================================== *)
(** * The order of strings                                                *)
(* ===================================================================== *)










(* ===================================================================== *)
(** * Grouping and ordering of the review comments                        *)
(* ===================================================================== *)

Lemma file_comments_setdefault q p c by_file :
  file_comments q (setdefault_append p c by_file)
  = if String.eqb p q then Some (default [] (file_comments p by_file) ++ [c])
    else file_comments q by_file.
Proof.
  induction by_file as [|[p' cs] rest IH]; simpl.
  - destruct (String.eqb p q); reflexivity.
  - destruct (String.eqb p' p) eqn:Hp'p; simpl.
    + apply String.eqb_eq in Hp'p. subst p'.
      destruct (String.eqb p q); reflexivity.
    + rewrite IH. destruct (String.eqb p q) eqn:Hpq; [|reflexivity].
      apply String.eqb_eq in Hpq. subst q. rewrite Hp'p. reflexivity.
Qed.

Lemma setdefault_append_paths p c by_file :
  map fst (setdefault_append p c by_file)
  = match file_comments p by_file with
    | Some _ => map fst by_file
    | None => map fst by_file ++ [p]
    end.
Proof.
  induction by_file as [|[p' cs] rest IH]; simpl; [reflexivity|].
  destruct (String.eqb p' p) eqn:Hp'p; simpl; [reflexivity|].
  rewrite IH. destruct (file_comments p rest); reflexivity.
Qed.

Lemma file_comments_None p by_file :
  file_comments p by_file = None -> ~ In p (map fst by_file).
Proof.
  induction by_file as [|[q cs] rest IH]; simpl; [tauto|].
  destruct (String.eqb q p) eqn:Hqp; [discriminate|].
  apply String.eqb_neq in Hqp. intros H [Heq|Hin]; [contradiction|].
  exact (IH H Hin).
Qed.

Lemma file_comments_In p cs by_file :
  List.NoDup (map fst by_file) -> In (p, cs) by_file -> file_comments p by_file = Some cs.
Proof.
  induction by_file as [|[q cs'] rest IH]; simpl; [tauto|].
  intros Hnd [Heq|Hin].
  - inversion Heq; subst. rewrite String.eqb_refl. reflexivity.
  - inversion Hnd as [|? ? Hq Hrest]; subst.
    destruct (String.eqb q p) eqn:Hqp.
    + apply String.eqb_eq in Hqp. subst q.
      exfalso. apply Hq. apply in_map_iff. exists (p, cs). split; [reflexivity|exact Hin].
    + apply IH; assumption.
Qed.

Lemma setdefault_append_NoDup p c by_file :
  List.NoDup (map fst by_file) -> List.NoDup (map fst (setdefault_append p c by_file)).
Proof.
  intros Hnd. rewrite setdefault_append_paths.
  destruct (file_comments p by_file) eqn:Hp; [exact Hnd|].
  apply List.NoDup_app.
  - exact Hnd.
  - constructor; [intros []|constructor].
  - intros x Hx [<-|[]]. exact (file_comments_None _ _ Hp Hx).
Qed.

(** What the grouping loop keeps: under each path the comments of that path,
    in arrival order, and no path twice. *)
Lemma group_fold_spec cs : forall by_file done,
  List.NoDup (map fst by_file) ->
  (forall q, file_comments q by_file = some_if_nonempty (List.filter (in_file q) done)) ->
  let result :=
    fold_left (fun by_file c => setdefault_append (ReviewComment.path c) c by_file)
              cs by_file in
  List.NoDup (map fst result)
  /\ forall q, file_comments q result
               = some_if_nonempty (List.filter (in_file q) (done ++ cs)).
Proof.
  induction cs as [|c cs IH]; intros by_file done Hnd Hget; simpl.
  - rewrite app_nil_r. split; assumption.
  - specialize (IH (setdefault_append (ReviewComment.path c) c by_file) (done ++ [c])).
    simpl in IH. rewrite <- app_assoc in IH. simpl in IH. apply IH.
    + apply setdefault_append_NoDup. exact Hnd.
    + intros q. rewrite file_comments_setdefault, List.filter_app. simpl.
      assert (Hin : in_file q c = String.eqb (ReviewComment.path c) q) by reflexivity.
      rewrite Hin. destruct (String.eqb (ReviewComment.path c) q) eqn:Hq.
      * apply String.eqb_eq in Hq. subst q. rewrite Hget.
        destruct (List.filter (in_file (ReviewComment.path c)) done); reflexivity.
      * rewrite app_nil_r. apply Hget.
Qed.

Lemma group_by_file_spec cs :
  List.NoDup (map fst (group_by_file cs))
  /\ forall q, file_comments q (group_by_file cs)
               = some_if_nonempty (List.filter (in_file q) cs).
Proof.
  apply (group_fold_spec cs [] []); [constructor|reflexivity].
Qed.





Lemma file_comments_Some p g by_file :
  file_comments p by_file = Some g -> In (p, g) by_file.
Proof.
  induction by_file as [|[q cs] rest IH]; simpl; [discriminate|].
  destruct (String.eqb q p) eqn:Hq.
  - apply String.eqb_eq in Hq. intros [= <-]. subst q. left; reflexivity.
  - intros H. right. apply IH. exact H.
Qed.

(** A section holds the comments of its path, sorted. *)
Lemma file_sections_group review_comments p cs :
  In (p, cs) (file_sections review_comments) ->
  cs = stable_sort key_leb (List.filter (in_file p) review_comments)
  /\ List.filter (in_file p) review_comments <> [].
Proof.
  destruct (group_by_file_spec review_comments) as [Hnd Hget].
  unfold file_sections. intros Hin.
  apply in_map_iff in Hin as [[q g] [Heq Hin]]. simpl in Heq.
  inversion Heq; subst p cs. clear Heq.
  apply stable_sort_In in Hin.
  pose proof (file_comments_In _ _ _ Hnd Hin) as Hg. rewrite Hget in Hg.
  destruct (List.filter (in_file q) review_comments); simpl in Hg; [discriminate|].
  inversion Hg; subst. split; [reflexivity|discriminate].
Qed.

(** Every comment is in the section of its path. *)
Lemma file_sections_path review_comments c :
  In c review_comments ->
  In (ReviewComment.path c,
      stable_sort key_leb (List.filter (in_file (ReviewComment.path c)) review_comments))
     (file_sections review_comments).
Proof.
  destruct (group_by_file_spec review_comments) as [Hnd Hget].
  intros Hc. unfold file_sections. apply in_map_iff.
  assert (Hf : In c (List.filter (in_file (ReviewComment.path c)) review_comments)).
  { apply filter_In. split; [exact Hc|]. unfold in_file. apply String.eqb_refl. }
  exists (ReviewComment.path c,
          List.filter (in_file (ReviewComment.path c)) review_comments).
  split; [reflexivity|]. apply stable_sort_In. apply file_comments_Some.
  rewrite Hget.
  destruct (List.filter (in_file (ReviewComment.path c)) review_comments);
    [destruct Hf|reflexivity].
Qed.


(** Comments of b.py (line 5) and of a.py (lines 20, 5, 15), as rendered. *)
Example format_orders_files_and_lines :
  format_comments_as_markdown
    [line_comment "b.py" 5; line_comment "a.py" 20; line_comment "a.py" 5;
     line_comment "a.py" 15] [] "owner" "repo" "10" None
  = Ok (Py.join LF
          ["# PR Comments: owner/repo#10"; "";
           "## Inline Code Review Comments"; ""; "";
           "### File: `a.py`"; "";
           "#### **Line 5** (@reviewer1)"; ""; "**Comment:**"; "note"; "";
           "#### **Line 15** (@reviewer1)"; ""; "**Comment:**"; "note"; "";
           "#### **Line 20** (@reviewer1)"; ""; "**Comment:**"; "note"; ""; "";
           "### File: `b.py`"; "";
           "#### **Line 5** (@reviewer1)"; ""; "**Comment:**"; "note"; ""]).
Proof. vm_compute. reflexivity. Qed.

(* ===================================================================== *)
(** * Properties of the renderer                                          *)
(* ===================================================================== *)

(** C7. Without issue comments, review comments and CI failures (none given,
    or an empty list) the result is the one line "No comments found on this
    PR." and a newline, whatever the owner, repository and number are. *)
Theorem format_nothing_to_report (owner repo pr_number : string) :
  format_comments_as_markdown [] [] owner repo pr_number None
  = Ok ("No comments found on this PR." +:+ LF)
  /\ format_comments_as_markdown [] [] owner repo pr_number (Some [])
     = Ok ("No comments found on this PR." +:+ LF).
Proof. split; reflexivity. Qed.

Lemma render_review_comments_cases cs :
  (render_review_comments cs = Raise AttributeError
   /\ exists c, In c cs /\ ReviewComment.diff_hunk c = None)
  \/ (exists out, render_review_comments cs = Ok out
      /\ forall c, In c cs -> ReviewComment.diff_hunk c <> None).
Proof.
  induction cs as [|c rest IH].
  - right. exists []. split; [reflexivity|]. intros c [].
  - simpl. unfold render_review_comment.
    destruct (ReviewComment.diff_hunk c) as [raw|] eqn:Hc.
    + destruct IH as [[Hr (c' & Hin & Hnone)]|(out & Hr & Hall)]; rewrite Hr; simpl.
      * left. split; [reflexivity|]. exists c'. split; [right; exact Hin|exact Hnone].
      * right. eexists. split; [reflexivity|].
        intros c' [<-|Hin]; [congruence|apply Hall; exact Hin].
    + left. split; [reflexivity|]. exists c. split; [left; reflexivity|exact Hc].
Qed.

Lemma render_file_sections_cases sections :
  (render_file_sections sections = Raise AttributeError
   /\ exists p cs c, In (p, cs) sections /\ In c cs /\ ReviewComment.diff_hunk c = None)
  \/ (exists out, render_file_sections sections = Ok out
      /\ forall p cs c, In (p, cs) sections -> In c cs ->
                        ReviewComment.diff_hunk c <> None).
Proof.
  induction sections as [|[p cs] rest IH].
  - right. exists []. split; [reflexivity|]. intros p cs c [].
  - simpl.
    destruct (render_review_comments_cases cs) as [[Hr (c & Hin & Hnone)]|(here & Hr & Hall)];
      rewrite Hr; simpl.
    + left. split; [reflexivity|]. exists p, cs, c.
      split; [left; reflexivity|split; assumption].
    + destruct IH as [[Hr' (p' & cs' & c & Hsec & Hin & Hnone)]|(there & Hr' & Hall')];
        rewrite Hr'; simpl.
      * left. split; [reflexivity|]. exists p', cs', c.
        split; [right; exact Hsec|split; assumption].
      * right. eexists. split; [reflexivity|].
        intros p' cs' c [Heq|Hsec] Hin.
        -- inversion Heq; subst. apply Hall. exact Hin.
        -- eapply Hall'; eassumption.
Qed.

Lemma file_sections_member review_comments c :
  In c review_comments
  <-> exists p cs, In (p, cs) (file_sections review_comments) /\ In c cs.
Proof.
  split.
  - intros Hc. eexists _, _. split; [apply file_sections_path; exact Hc|].
    apply stable_sort_In. apply filter_In. split; [exact Hc|].
    unfold in_file. apply String.eqb_refl.
  - intros (p & cs & Hsec & Hin).
    apply file_sections_group in Hsec as [-> _].
    apply stable_sort_In in Hin. apply filter_In in Hin. tauto.
Qed.

(** Over comments typed as the records are (a body, a login and a path that
    are strings), the renderer raises when a review comment has no
    [diff_hunk] string, and returns a text otherwise. *)
Lemma format_comments_as_markdown_cases
    review_comments issue_comments owner repo pr_number ci_failures :
  (format_comments_as_markdown review_comments issue_comments owner repo pr_number
     ci_failures = Raise AttributeError
   /\ exists c, In c review_comments /\ ReviewComment.diff_hunk c = None)
  \/ (exists text,
        format_comments_as_markdown review_comments issue_comments owner repo
          pr_number ci_failures = Ok text
        /\ forall c, In c review_comments -> ReviewComment.diff_hunk c <> None).
Proof.
  unfold format_comments_as_markdown.
  destruct review_comments as [|c0 rest] eqn:Hcs.
  - right. simpl.
    match goal with |- context [if ?b then Ok _ else Ok _] => destruct b end;
      eexists; (split; [reflexivity|intros c []]).
  - rewrite <- Hcs. replace (nonempty review_comments) with true by (subst; reflexivity).
    destruct (render_file_sections_cases (file_sections review_comments))
      as [[Hr (p & cs & c & Hsec & Hin & Hnone)]|(out & Hr & Hall)]; rewrite Hr; simpl.
    + left. split; [reflexivity|]. exists c. split; [|exact Hnone].
      apply file_sections_member. exists p, cs. split; assumption.
    + right. rewrite andb_false_r. simpl. eexists. split; [reflexivity|].
      intros c Hc. apply file_sections_member in Hc as (p & cs & Hsec & Hin).
      eapply Hall; eassumption.
Qed.

(** C8. A comment node without [diffHunk] becomes a review comment whose
    [diff_hunk] is [None], and the renderer raises [AttributeError] on it
    instead of returning a text. *)
Theorem format_raises_on_null_diff_hunk :
  let node := JDict [("author", JDict [("login", JStr "reviewer1")]);
                     ("body", JStr "Add type hints"); ("url", JStr "http://...")] in
  let c := {| ReviewComment.path := "app.py"; ReviewComment.line := Some 42;
              ReviewComment.start_line := Some 40;
              ReviewComment.original_line := Some 42;
              ReviewComment.diff_hunk := None;
              ReviewComment.user_login := "reviewer1";
              ReviewComment.body := "Add type hints";
              ReviewComment.url := Some "http://..." |} in
  (exists d, review_comment_dict (JStr "app.py") (JInt 42) (JInt 40) node = Ok d
             /\ read_review_comment d = Some c)
  /\ forall issue_comments owner repo pr_number ci_failures,
       format_comments_as_markdown [c] issue_comments owner repo pr_number ci_failures
       = Raise AttributeError.
Proof.
  intros node c. split.
  - eexists. split; reflexivity.
  - intros. unfold format_comments_as_markdown.
    destruct issue_comments; reflexivity.
Qed.

(* ===================================================================== *)
(** * Properties of the log summarizer                                    *)
(* ===================================================================== *)

Lemma find_line_first marker lines : forall k i,
  first_line_with marker lines i -> find_line marker k lines = Some (k + i)%nat.
Proof.
  induction lines as [|line rest IH]; intros k i [(l & Hnth & Hhas) Hbefore].
  - destruct i; discriminate.
  - simpl. destruct i as [|i].
    + simpl in Hnth. injection Hnth as ->. unfold line_has in Hhas. rewrite Hhas.
      f_equal. lia.
    + assert (H0 : line_has marker line = false)
        by (apply (Hbefore 0%nat); [lia|reflexivity]).
      unfold line_has in H0. rewrite H0.
      rewrite (IH (S k) i); [f_equal; lia|].
      split; [exists l; split; assumption|].
      intros j l' Hj Hl'. apply (Hbefore (S j)); [lia|exact Hl'].
Qed.

Lemma find_line_none marker lines : forall k,
  no_line_with marker lines -> find_line marker k lines = None.
Proof.
  induction lines as [|line rest IH]; intros k Hno; [reflexivity|].
  inversion Hno as [|? ? Hline Hrest]; subst. simpl.
  unfold line_has in Hline. rewrite Hline. apply IH. exact Hrest.
Qed.

Lemma last_forty (n : nat) : Z.to_nat (Z.max (Z.of_nat n - 40) 0) = (n - 40)%nat.
Proof. lia. Qed.

(** C5. With [include_full_log] the log comes back untouched, and the empty
    log gives the empty text. Otherwise, on the lines of the trimmed log: from
    the first line that holds "short test summary info" in any case, if there
    is one; else from the first line that holds "failed" in any case, if there
    is one; else the last 40 lines; in each case to the end, joined by
    newlines and trimmed. *)
Theorem summarize_ci_log_cases (log_output : string) :
  _summarize_ci_log log_output true = log_output
  /\ _summarize_ci_log "" false = ""
  /\ let lines := Py.splitlines (Py.strip log_output) in
     (forall i, first_line_with "short test summary info" lines i ->
                _summarize_ci_log log_output false = lines_from i lines)
     /\ (forall i, no_line_with "short test summary info" lines ->
                   first_line_with "failed" lines i ->
                   _summarize_ci_log log_output false = lines_from i lines)
     /\ (no_line_with "short test summary info" lines ->
         no_line_with "failed" lines ->
         _summarize_ci_log log_output false
         = lines_from (length lines - 40) lines).
Proof.
  split; [reflexivity|]. split; [reflexivity|].
  intros lines. unfold _summarize_ci_log. simpl orb.
  destruct (String.eqb log_output "") eqn:Hempty.
  - apply String.eqb_eq in Hempty. subst log_output. subst lines. simpl.
    split; [|split].
    + intros i [(l & Hnth & _) _]. destruct i; discriminate.
    + intros i _ [(l & Hnth & _) _]. destruct i; discriminate.
    + reflexivity.
  - fold lines. destruct lines as [|line rest] eqn:Hlines.
    + split; [|split].
      * intros i [(l & Hnth & _) _]. destruct i; discriminate.
      * intros i _ [(l & Hnth & _) _]. destruct i; discriminate.
      * reflexivity.
    + rewrite <- Hlines. split; [|split].
      * intros i Hfirst. rewrite (find_line_first _ _ 0%nat i Hfirst). reflexivity.
      * intros i Hno Hfirst.
        rewrite (find_line_none _ _ 0%nat Hno), (find_line_first _ _ 0%nat i Hfirst).
        reflexivity.
      * intros Hno1 Hno2.
        rewrite (find_line_none _ _ 0%nat Hno1), (find_line_none _ _ 0%nat Hno2).
        rewrite last_forty. reflexivity.
Qed.

Lemma no_line_with_forallb marker lines :
  forallb (fun line => negb (line_has marker line)) lines = true ->
  no_line_with marker lines.
Proof.
  induction lines as [|line rest IH]; simpl; intros H; constructor.
  - apply andb_prop in H as [H _]. apply negb_true_iff. exact H.
  - apply IH. apply andb_prop in H as [_ H]. exact H.
Qed.

(** A log with the pytest summary in its second line, one with a failed line
    only, and one without any marker. *)
Lemma summarize_ci_log_cases_witness :
  first_line_with "short test summary info" (Py.splitlines (Py.strip summary_log)) 1
  /\ _summarize_ci_log summary_log false
     = "==== Short Test Summary Info ====" +:+ LF +:+ "FAILED tests/test_a.py"
  /\ no_line_with "short test summary info" (Py.splitlines (Py.strip failed_log))
  /\ first_line_with "failed" (Py.splitlines (Py.strip failed_log)) 2
  /\ _summarize_ci_log failed_log false
     = "FAILED test_sample::test_a" +:+ LF +:+ "Trailing"
  /\ no_line_with "short test summary info" (Py.splitlines (Py.strip plain_log))
  /\ no_line_with "failed" (Py.splitlines (Py.strip plain_log))
  /\ _summarize_ci_log plain_log false = plain_log.
Proof.
  assert (H1 : first_line_with "short test summary info"
                 (Py.splitlines (Py.strip summary_log)) 1).
  { split; [eexists; split; reflexivity|].
    intros j line Hj Hnth. destruct j as [|j]; [|lia].
    injection Hnth as <-. reflexivity. }
  assert (H2 : no_line_with "short test summary info"
                 (Py.splitlines (Py.strip failed_log)))
    by (apply no_line_with_forallb; vm_compute; reflexivity).
  assert (H3 : first_line_with "failed" (Py.splitlines (Py.strip failed_log)) 2).
  { split; [eexists; split; reflexivity|].
    intros j line Hj Hnth. destruct j as [|[|j]]; [| |lia];
      injection Hnth as <-; reflexivity. }
  assert (H4 : no_line_with "short test summary info"
                 (Py.splitlines (Py.strip plain_log)))
    by (apply no_line_with_forallb; vm_compute; reflexivity).
  assert (H5 : no_line_with "failed" (Py.splitlines (Py.strip plain_log)))
    by (apply no_line_with_forallb; vm_compute; reflexivity).
  destruct (summarize_ci_log_cases summary_log) as (_ & _ & Hs1 & _ & _).
  destruct (summarize_ci_log_cases failed_log) as (_ & _ & _ & Hs2 & _).
  destruct (summarize_ci_log_cases plain_log) as (_ & _ & _ & _ & Hs3).
  exact (conj H1 (conj (Hs1 _ H1) (conj H2 (conj H3 (conj (Hs2 _ H2 H3)
          (conj H4 (conj H5 (Hs3 H4 H5)))))))).
Defined.

(* ===================================================================== *)
(** * Properties of the dedup key                                         *)
(* ===================================================================== *)

Lemma has_char_app c a b : has_char c (a +:+ b) = has_char c a || has_char c b.
Proof.
  induction a as [|x a IH]; simpl; [reflexivity|].
  rewrite IH. apply orb_assoc.
Qed.

Lemma pretty_N_go_no_colon x : forall s,
  has_char ":" s = false -> has_char ":" (pretty_N_go x s) = false.
Proof.
  induction (N.lt_wf_0 x) as [x _ IH]; intros s Hs.
  destruct (decide (x = 0)%N) as [->|Hx]; [rewrite pretty_N_go_0; exact Hs|].
  rewrite pretty_N_go_step by lia. apply IH; [apply N.div_lt; lia|].
  simpl. rewrite Hs. unfold pretty_N_char. repeat case_match; reflexivity.
Qed.

(** The decimal form of an integer holds no colon. *)
Lemma str_int_no_colon n : has_char ":" (Py.str_int n) = false.
Proof.
  unfold Py.str_int, pretty, pretty_Z.
  destruct n as [|p|p]; [reflexivity| |].
  - unfold pretty, pretty_positive, pretty, pretty_N.
    case_decide; [reflexivity|]. apply pretty_N_go_no_colon. reflexivity.
  - rewrite has_char_app. simpl.
    unfold pretty, pretty_positive, pretty, pretty_N.
    case_decide; [reflexivity|]. apply pretty_N_go_no_colon. reflexivity.
Qed.

Lemma str_int_inj a b : Py.str_int a = Py.str_int b -> a = b.
Proof. unfold Py.str_int. apply pretty_Z_inj. Qed.

(** The key of a run with an id is the decimal form of the id; the key of a
    run without one holds a colon, so the two kinds never meet. *)
Lemma dedup_key_run_id run run_id :
  dedup_key run = Py.str_int run_id <-> FailedRun.workflow_run_id run = Some run_id.
Proof.
  unfold dedup_key. destruct (FailedRun.workflow_run_id run) as [id|].
  - split; [intros H; f_equal; apply str_int_inj; exact H|intros [= ->]; reflexivity].
  - split; [|discriminate]. intros H.
    pose proof (str_int_no_colon run_id) as Hno. rewrite <- H in Hno.
    rewrite !has_char_app in Hno. simpl in Hno. rewrite orb_true_r in Hno. discriminate.
Qed.

(* ===================================================================== *)
(** * Properties of the runs that are kept                                *)
(* ===================================================================== *)

Lemma first_occurrences_keys runs : forall seen,
  List.NoDup (map dedup_key (first_occurrences seen runs))
  /\ forall run, In run (first_occurrences seen runs) -> dedup_key run ∉ seen.
Proof.
  induction runs as [|r rest IH]; intros seen; simpl.
  - split; [constructor|intros run []].
  - case_bool_decide as Hseen; [apply IH|].
    destruct (IH ({[dedup_key r]} ∪ seen)) as [Hnd Hnot]. split.
    + simpl. constructor; [|exact Hnd].
      intros Hin. apply in_map_iff in Hin as (run & Hkey & Hrun).
      apply Hnot in Hrun. rewrite Hkey in Hrun.
      apply Hrun, elem_of_union. left. apply elem_of_singleton. reflexivity.
    + intros run [<-|Hrun]; [exact Hseen|]. apply Hnot in Hrun.
      intros Hin. apply Hrun, elem_of_union. right. exact Hin.
Qed.

Lemma first_occurrences_cover runs : forall seen run,
  In run runs -> dedup_key run ∉ seen ->
  In (dedup_key run) (map dedup_key (first_occurrences seen runs)).
Proof.
  induction runs as [|r rest IH]; intros seen run Hin Hnot; [destruct Hin|].
  simpl. case_bool_decide as Hseen.
  - destruct Hin as [->|Hin]; [contradiction|]. apply IH; assumption.
  - simpl. destruct (decide (dedup_key r = dedup_key run)) as [Heq|Hne];
      [left; exact Heq|]. right.
    destruct Hin as [->|Hin]; [contradiction|].
    apply IH; [exact Hin|]. intros Hel.
    apply elem_of_union in Hel as [Hel|Hel]; [|contradiction].
    apply elem_of_singleton in Hel. congruence.
Qed.

Lemma first_occurrences_In runs : forall seen run,
  In run (first_occurrences seen runs) -> In run runs.
Proof.
  induction runs as [|r rest IH]; intros seen run; simpl; [tauto|].
  case_bool_decide as Hseen; [intros Hin; right; eapply IH; exact Hin|].
  intros [<-|Hin]; [left; reflexivity|right; eapply IH; exact Hin].
Qed.

Section Counting.

Context {A B : Type}.

Lemma count_none (p : A -> bool) l :
  (forall x, In x l -> p x = false) -> count p l = 0%nat.
Proof.
  unfold count. induction l as [|x l IH]; intros H; [reflexivity|].
  simpl. rewrite (H x) by (left; reflexivity). apply IH.
  intros y Hy. apply H. right. exact Hy.
Qed.

Lemma count_at_most_one (f : A -> B) (p : A -> bool) (k : B) l :
  List.NoDup (map f l) ->
  (forall x, In x l -> p x = true -> f x = k) ->
  (count p l <= 1)%nat.
Proof.
  induction l as [|x l IH]; intros Hnd Hk; [unfold count; simpl; lia|].
  inversion Hnd as [|? ? Hx Hl]; subst.
  unfold count in *. simpl. destruct (p x) eqn:Hpx.
  - simpl. fold (count p l). rewrite count_none; [lia|].
    intros y Hy. destruct (p y) eqn:Hpy; [|reflexivity].
    exfalso. apply Hx. apply in_map_iff. exists y. split; [|exact Hy].
    rewrite (Hk y) by (auto; right; exact Hy).
    symmetry. apply Hk; [left; reflexivity|exact Hpx].
  - apply IH; [exact Hl|]. intros y Hy. apply Hk. right. exact Hy.
Qed.

Lemma count_at_least_one (p : A -> bool) x l :
  In x l -> p x = true -> (1 <= count p l)%nat.
Proof.
  unfold count. induction l as [|y l IH]; [intros []|]. intros [<-|Hin] Hp; simpl.
  - rewrite Hp. simpl. lia.
  - destruct (p y); simpl; [lia|]. apply IH; assumption.
Qed.

End Counting.

(* ===================================================================== *)
(** * Properties of the CI failure collector                              *)
(* ===================================================================== *)

Lemma summarize_no_run_id_message full :
  _summarize_ci_log NO_RUN_ID_MESSAGE full = NO_RUN_ID_MESSAGE.
Proof. destruct full; vm_compute; reflexivity. Qed.

Lemma count_Forall2 {A B} (R : A -> B -> Prop) (q : A -> bool) (p : B -> bool) xs ys :
  Forall2 R xs ys -> (forall x y, R x y -> p y = q x) -> count p ys = count q xs.
Proof.
  intros H Hpq. unfold count. induction H as [|x y xs ys Hxy _ IH]; [reflexivity|].
  simpl. rewrite (Hpq x y Hxy). destruct (q x); simpl; rewrite IH; reflexivity.
Qed.

Lemma log_calls_cons r rest :
  log_calls (r :: rest)
  = match FailedRun.workflow_run_id r with
    | Some id => RunView (Py.str_int id) :: log_calls rest
    | None => log_calls rest
    end.
Proof.
  unfold log_calls. simpl. destruct (FailedRun.workflow_run_id r); reflexivity.
Qed.

Lemma count_cons {A} (p : A -> bool) x l :
  count p (x :: l) = ((if p x then 1 else 0) + count p l)%nat.
Proof. unfold count. simpl. destruct (p x); reflexivity. Qed.

Lemma count_log_calls run_id runs :
  count (is_run_view (Py.str_int run_id)) (log_calls runs)
  = count (run_has_id run_id) runs.
Proof.
  induction runs as [|r rest IH]; [reflexivity|].
  rewrite log_calls_cons, (count_cons (run_has_id run_id)). unfold run_has_id at 1.
  destruct (FailedRun.workflow_run_id r) as [id|].
  - rewrite count_cons, IH. f_equal. simpl.
    destruct (String.eqb (Py.str_int id) (Py.str_int run_id)) eqn:Heq.
    + apply String.eqb_eq, str_int_inj in Heq. subst id.
      rewrite bool_decide_eq_true_2 by reflexivity. reflexivity.
    + apply String.eqb_neq in Heq.
      rewrite bool_decide_eq_false_2 by (intros [= ->]; contradiction). reflexivity.
  - rewrite bool_decide_eq_false_2 by discriminate. exact IH.
Qed.

Section Collector.

Context {World : Type}.
Variable gh_run_view : World -> string -> run_view_reply * World.

(** The log of a run with an id is asked for once and is always a text. *)
Lemma fetch_log_or_message_spec run_id st :
  fetch_log_or_message gh_run_view run_id st
  = (Ok (raw_log (fst (gh_run_view (world st) (Py.str_int run_id))) run_id),
     {| world := snd (gh_run_view (world st) (Py.str_int run_id));
        calls := calls st ++ [RunView (Py.str_int run_id)] |}).
Proof.
  unfold fetch_log_or_message, fetch_ci_run_log.
  destruct (gh_run_view (world st) (Py.str_int run_id)) as [[stderr|text] w]; reflexivity.
Qed.

(** The loop returns, with one entry per kept run, in order; it asks for the
    log of the kept runs that have an id, and of no other. *)
Lemma collect_runs_spec runs full : forall seen acc st,
  exists out,
    fst (collect_runs gh_run_view runs full seen acc st) = Ok (acc ++ out)
    /\ Forall2 entry_of (first_occurrences seen runs) out
    /\ Forall (fun f => CIFailure.workflow_run_id f = None ->
                        CIFailure.log_output f = Some NO_RUN_ID_MESSAGE) out
    /\ calls (snd (collect_runs gh_run_view runs full seen acc st))
       = calls st ++ log_calls (first_occurrences seen runs).
Proof.
  induction runs as [|r rest IH]; intros seen acc st.
  - exists []. simpl. rewrite !app_nil_r. repeat split; constructor.
  - simpl. case_bool_decide as Hseen; [apply IH|].
    unfold hbind. destruct (FailedRun.workflow_run_id r) as [id|] eqn:Hid.
    + rewrite fetch_log_or_message_spec.
      match goal with
      | |- context [collect_runs _ rest full ?seen' (acc ++ [?entry]) ?st'] =>
          destruct (IH seen' (acc ++ [entry]) st') as (out & Hout & Hent & Hlog & Hcalls);
          exists (entry :: out)
      end.
      rewrite Hout, Hcalls, <- !app_assoc, log_calls_cons, Hid. simpl.
      split; [reflexivity|].
      split; [|split; [|simpl; rewrite <- ?app_assoc; reflexivity]].
      * constructor; [|exact Hent]. unfold entry_of. simpl. rewrite Hid. tauto.
      * constructor; [|exact Hlog]. simpl. discriminate.
    + unfold hret. cbv beta iota.
      match goal with
      | |- context [collect_runs _ rest full ?seen' (acc ++ [?entry]) ?st'] =>
          destruct (IH seen' (acc ++ [entry]) st') as (out & Hout & Hent & Hlog & Hcalls);
          exists (entry :: out)
      end.
      rewrite Hout, Hcalls, <- !app_assoc, log_calls_cons, Hid. simpl.
      split; [reflexivity|].
      split; [|split; [|simpl; rewrite <- ?app_assoc; reflexivity]].
      * constructor; [|exact Hent]. unfold entry_of. simpl. rewrite Hid. tauto.
      * constructor; [|exact Hlog]. simpl. intros _.
        fold NO_RUN_ID_MESSAGE. rewrite summarize_no_run_id_message. reflexivity.
Qed.

End Collector.

Lemma kept_run_of_id runs run_id :
  In (Some run_id) (map FailedRun.workflow_run_id runs) ->
  count (run_has_id run_id) (first_occurrences ∅ runs) = 1%nat.
Proof.
  intros Hin. destruct (first_occurrences_keys runs ∅) as [Hnd _].
  assert (Hle : (count (run_has_id run_id) (first_occurrences ∅ runs) <= 1)%nat).
  { apply (count_at_most_one dedup_key _ (Py.str_int run_id)); [exact Hnd|].
    intros r _ Hr. apply dedup_key_run_id. apply bool_decide_eq_true in Hr. exact Hr. }
  assert (Hge : (1 <= count (run_has_id run_id) (first_occurrences ∅ runs))%nat).
  { apply in_map_iff in Hin as (run & Hid & Hrun).
    pose proof (first_occurrences_cover runs ∅ run Hrun (not_elem_of_empty _)) as Hcov.
    apply in_map_iff in Hcov as (r & Hkey & Hr).
    apply (count_at_least_one _ r); [exact Hr|].
    apply bool_decide_eq_true. apply dedup_key_run_id. rewrite Hkey.
    apply dedup_key_run_id. exact Hid. }
  lia.
Qed.

Lemma kept_run_of_name_and_url runs name details_url :
  (count (run_has_name_and_url name details_url) (first_occurrences ∅ runs) <= 1)%nat.
Proof.
  destruct (first_occurrences_keys runs ∅) as [Hnd _].
  apply (count_at_most_one dedup_key _ (name +:+ ":" +:+ Py.str_opt details_url));
    [exact Hnd|].
  intros r _ Hr. apply bool_decide_eq_true in Hr as (Hid & Hname & Hurl).
  unfold dedup_key. rewrite Hid, Hname, Hurl. reflexivity.
Qed.

Lemma run_key_text_dedup_key run :
  FailedRun.workflow_run_id run = None -> dedup_key run = run_key_text run.
Proof. intros Hid. unfold dedup_key, run_key_text. rewrite Hid. reflexivity. Qed.

Lemma run_key_text_no_id run r :
  FailedRun.workflow_run_id run = None -> dedup_key r = run_key_text run ->
  FailedRun.workflow_run_id r = None.
Proof.
  intros Hid Hkey. destruct (FailedRun.workflow_run_id r) as [id|] eqn:Hr; [|reflexivity].
  exfalso. rewrite <- (run_key_text_dedup_key run Hid) in Hkey.
  assert (Hrun : dedup_key run = Py.str_int id).
  { rewrite <- Hkey. apply dedup_key_run_id. exact Hr. }
  apply dedup_key_run_id in Hrun. congruence.
Qed.

(** Every key text of a run without id is kept exactly once. *)
Lemma kept_run_of_key_text runs run :
  In run runs -> FailedRun.workflow_run_id run = None ->
  count (run_has_key_text (run_key_text run)) (first_occurrences ∅ runs) = 1%nat.
Proof.
  intros Hin Hid. destruct (first_occurrences_keys runs ∅) as [Hnd _].
  assert (Hle : (count (run_has_key_text (run_key_text run))
                   (first_occurrences ∅ runs) <= 1)%nat).
  { apply (count_at_most_one dedup_key _ (run_key_text run)); [exact Hnd|].
    intros r _ Hr. apply bool_decide_eq_true in Hr as (Hrid & Hkey).
    rewrite (run_key_text_dedup_key r Hrid). exact Hkey. }
  assert (Hge : (1 <= count (run_has_key_text (run_key_text run))
                        (first_occurrences ∅ runs))%nat).
  { pose proof (first_occurrences_cover runs ∅ run Hin (not_elem_of_empty _)) as Hcov.
    apply in_map_iff in Hcov as (r & Hkey & Hr).
    rewrite (run_key_text_dedup_key run Hid) in Hkey.
    pose proof (run_key_text_no_id run r Hid Hkey) as Hrid.
    apply (count_at_least_one _ r); [exact Hr|].
    apply bool_decide_eq_true. split; [exact Hrid|].
    rewrite <- (run_key_text_dedup_key r Hrid). exact Hkey. }
  lia.
Qed.

Lemma Forall2_In_right {A B} (R : A -> B -> Prop) xs ys y :
  Forall2 R xs ys -> In y ys -> exists x, In x xs /\ R x y.
Proof.
  induction 1 as [|x y' xs ys Hxy _ IH]; [intros []|].
  intros [<-|Hin].
  - exists x. split; [left; reflexivity|exact Hxy].
  - destruct (IH Hin) as (x' & Hx' & HR). exists x'. split; [right; exact Hx'|exact HR].
Qed.

(** C4. The collector returns; every run id of the input is carried by
    exactly one entry of the result and its log is asked for exactly once,
    however many failed check runs share the id. A run without id is kept
    under the text of its name, a colon and its details URL: every such text
    of the input is carried by exactly one entry without id, so runs of the
    same name and details URL collapse, and so do runs of different pairs
    whose texts are the same. Every entry is the entry of a run of the input,
    and no two entries without run id carry the same name and details URL. *)
Theorem collect_ci_failures_deduplicates {World : Type}
    (gh_run_view : World -> string -> run_view_reply * World)
    (failed_runs : list FailedRun.t) (include_full_logs : bool) (st : hstate World) :
  exists ci_failures new_calls,
    fst (collect_ci_failures gh_run_view failed_runs include_full_logs st) = Ok ci_failures
    /\ calls (snd (collect_ci_failures gh_run_view failed_runs include_full_logs st))
       = calls st ++ new_calls
    /\ (forall run_id,
           In (Some run_id) (map FailedRun.workflow_run_id failed_runs) ->
           count (has_run_id run_id) ci_failures = 1%nat
           /\ count (is_run_view (Py.str_int run_id)) new_calls = 1%nat)
    /\ (forall run,
           In run failed_runs -> FailedRun.workflow_run_id run = None ->
           count (has_key_text
                    (name_or_default (FailedRun.name run) +:+ ":"
                     +:+ Py.str_opt (FailedRun.details_url run))) ci_failures = 1%nat)
    /\ (forall f, In f ci_failures -> exists run, In run failed_runs /\ entry_of run f)
    /\ (forall name details_url,
           (count (has_name_and_url name details_url) ci_failures <= 1)%nat).
Proof.
  unfold collect_ci_failures.
  destruct (collect_runs_spec gh_run_view failed_runs include_full_logs ∅ [] st)
    as (out & Hout & Hent & _ & Hcalls).
  exists out, (log_calls (first_occurrences ∅ failed_runs)).
  split; [exact Hout|]. split; [exact Hcalls|]. split; [|split; [|split]].
  - intros run_id Hin. split.
    + rewrite (count_Forall2 entry_of (run_has_id run_id) (has_run_id run_id) _ _ Hent).
      * apply kept_run_of_id. exact Hin.
      * intros r f (_ & Hid & _). unfold has_run_id, run_has_id. rewrite Hid. reflexivity.
    + rewrite count_log_calls. apply kept_run_of_id. exact Hin.
  - intros run Hin Hid. fold (run_key_text run).
    rewrite (count_Forall2 entry_of (run_has_key_text (run_key_text run))
               (has_key_text (run_key_text run)) _ _ Hent).
    + apply kept_run_of_key_text; assumption.
    + intros r f (Hname & Hrid & Hurl & _).
      unfold has_key_text, run_has_key_text, run_key_text at 2.
      apply bool_decide_ext. rewrite Hname, Hrid, Hurl. reflexivity.
  - intros f Hf. destruct (Forall2_In_right _ _ _ _ Hent Hf) as (run & Hrun & He).
    exists run. split; [|exact He]. eapply first_occurrences_In. exact Hrun.
  - intros name details_url.
    rewrite (count_Forall2 entry_of (run_has_name_and_url name details_url)
               (has_name_and_url name details_url) _ _ Hent).
    + apply kept_run_of_name_and_url.
    + intros r f (Hname & Hid & Hurl & _).
      unfold has_name_and_url, run_has_name_and_url.
      apply bool_decide_ext. rewrite Hname, Hid, Hurl.
      split; intros (H1 & H2 & H3); repeat split; congruence.
Qed.

(** Two failed check runs of workflow run 10 around a check without run. *)
Lemma collect_ci_failures_deduplicates_witness :
  let st := init [RunViewStdout "log data"] in
  In (Some 10) (map FailedRun.workflow_run_id sample_runs)
  /\ In (ci_run "External Check" None) sample_runs
  /\ FailedRun.workflow_run_id (ci_run "External Check" None) = None
  /\ exists ci_failures new_calls,
       fst (collect_ci_failures Scripted.gh_run_view sample_runs false st) = Ok ci_failures
       /\ calls (snd (collect_ci_failures Scripted.gh_run_view sample_runs false st))
          = calls st ++ new_calls
       /\ (count (has_run_id 10) ci_failures = 1%nat
           /\ count (is_run_view (Py.str_int 10)) new_calls = 1%nat)
       /\ count (has_key_text "External Check:https://example.com/ci") ci_failures
          = 1%nat.
Proof.
  intros st.
  assert (Hin : In (Some 10) (map FailedRun.workflow_run_id sample_runs))
    by (left; reflexivity).
  assert (Hrun : In (ci_run "External Check" None) sample_runs)
    by (right; left; reflexivity).
  assert (Hid : FailedRun.workflow_run_id (ci_run "External Check" None) = None)
    by reflexivity.
  split; [exact Hin|]. split; [exact Hrun|]. split; [exact Hid|].
  destruct (collect_ci_failures_deduplicates Scripted.gh_run_view sample_runs false st)
    as (ci_failures & new_calls & Hres & Hcalls & Hids & Htexts & _).
  exists ci_failures, new_calls.
  exact (conj Hres (conj Hcalls (conj (Hids 10 Hin)
           (Htexts (ci_run "External Check" None) Hrun Hid)))).
Defined.

(** The claim's key told apart what the collector merges: the two checks of
    [colon_runs] differ in name and in details URL, a deduplication by the
    pair keeps both, and the collector reports the first of them only. *)
Lemma collect_ci_failures_merges_different_pairs :
  claimed_first_occurrences [] colon_runs = colon_runs
  /\ map FailedRun.workflow_run_id colon_runs = [None; None]
  /\ fst (collect_ci_failures Scripted.gh_run_view colon_runs false (init []))
     = Ok [{| CIFailure.name := Some "lint:py"; CIFailure.workflow_run_id := None;
              CIFailure.details_url := Some "https://ci.example.com/1";
              CIFailure.workflow_url := None;
              CIFailure.log_output := Some NO_RUN_ID_MESSAGE |}].
Proof.
  split; [vm_compute; reflexivity|]. split; [reflexivity|]. vm_compute. reflexivity.
Qed.



(** ** The collector on the two sample hosts *)

Example collect_sample_runs :
  collect_ci_failures Scripted.gh_run_view sample_runs false
    (init [RunViewStdout "log data"])
  = (Ok [{| CIFailure.name := Some "CI"; CIFailure.workflow_run_id := Some 10;
            CIFailure.details_url := Some "https://example.com/ci";
            CIFailure.workflow_url := None;
            CIFailure.log_output := Some "log data" |};
         {| CIFailure.name := Some "External Check"; CIFailure.workflow_run_id := None;
            CIFailure.details_url := Some "https://example.com/ci";
            CIFailure.workflow_url := None;
            CIFailure.log_output := Some NO_RUN_ID_MESSAGE |}],
     {| world := []; calls := [RunView "10"] |}).
Proof. vm_compute. reflexivity. Qed.

Example collect_sample_runs_log_failure :
  collect_ci_failures Scripted.gh_run_view sample_runs true
    (init [RunViewFailed "boom"])
  = (Ok [{| CIFailure.name := Some "CI"; CIFailure.workflow_run_id := Some 10;
            CIFailure.details_url := Some "https://example.com/ci";
            CIFailure.workflow_url := None;
            CIFailure.log_output :=
              Some "Failed to fetch logs for run 10: gh run view failed: boom" |};
         {| CIFailure.name := Some "External Check"; CIFailure.workflow_run_id := None;
            CIFailure.details_url := Some "https://example.com/ci";
            CIFailure.workflow_url := None;
            CIFailure.log_output := Some NO_RUN_ID_MESSAGE |}],
     {| world := []; calls := [RunView "10"] |}).
Proof. vm_compute. reflexivity. Qed.

(* ===================================================================== *)
(** * Properties of the PR path parser                                    *)
(* ===================================================================== *)

Section PathText.

Variable c : ascii.

Lemma lstrip_char_repeat n s :
  PyText.lstrip_char c (PyText.repeat_char c n +:+ s) = PyText.lstrip_char c s.
Proof.
  induction n as [|n IH]; [reflexivity|].
  simpl. rewrite Ascii.eqb_refl. exact IH.
Qed.

Lemma rstrip_char_repeat n : PyText.rstrip_char c (PyText.repeat_char c n) = "".
Proof.
  induction n as [|n IH]; [reflexivity|].
  simpl. rewrite IH, Ascii.eqb_refl. reflexivity.
Qed.

(** A text without the character keeps its end, whatever run of the
    character follows it. *)
Lemma rstrip_char_clean s n :
  has_char c s = false ->
  PyText.rstrip_char c (s +:+ PyText.repeat_char c n) = s.
Proof.
  induction s as [|x s IH]; simpl.
  - intros _. apply rstrip_char_repeat.
  - intros H. apply orb_false_iff in H as [Hx Hs]. rewrite (IH Hs).
    destruct s; [rewrite Hx|]; reflexivity.
Qed.

Lemma rstrip_char_app a b :
  PyText.rstrip_char c b <> "" ->
  PyText.rstrip_char c (a +:+ b) = a +:+ PyText.rstrip_char c b.
Proof.
  intros Hb. induction a as [|x a IH]; [reflexivity|].
  change (String x a +:+ b) with (String x (a +:+ b)).
  change (String x a +:+ PyText.rstrip_char c b)
    with (String x (a +:+ PyText.rstrip_char c b)).
  cbn [PyText.rstrip_char]. rewrite IH.
  destruct (a +:+ PyText.rstrip_char c b) eqn:Hab; [|reflexivity].
  destruct a; simpl in Hab; [contradiction|discriminate].
Qed.

Lemma split_char_clean s :
  has_char c s = false -> PyText.split_char c s = [s].
Proof.
  induction s as [|x s IH]; [reflexivity|].
  simpl. intros H. apply orb_false_iff in H as [Hx Hs].
  rewrite Hx, (IH Hs). reflexivity.
Qed.

Lemma split_char_app a b :
  has_char c a = false ->
  PyText.split_char c (a +:+ String c b) = a :: PyText.split_char c b.
Proof.
  induction a as [|x a IH]; simpl.
  - intros _. rewrite Ascii.eqb_refl. reflexivity.
  - intros H. apply orb_false_iff in H as [Hx Ha].
    rewrite Hx, (IH Ha). reflexivity.
Qed.

Lemma concat_cons_cons (sep x y : string) l :
  String.concat sep (x :: y :: l) = x +:+ sep +:+ String.concat sep (y :: l).
Proof. reflexivity. Qed.

(** Splitting loses nothing: the pieces hold no separator and joined by it
    give the text back. *)
Lemma split_char_join s :
  String.concat (String c "") (PyText.split_char c s) = s
  /\ Forall (fun piece => has_char c piece = false) (PyText.split_char c s)
  /\ PyText.split_char c s <> [].
Proof.
  induction s as [|x s (IHj & IHf & IHn)]; simpl.
  - repeat split; [repeat constructor|discriminate].
  - destruct (Ascii.eqb x c) eqn:Hx.
    + apply Ascii.eqb_eq in Hx. subst x. repeat split.
      * destruct (PyText.split_char c s) eqn:Hs; [contradiction|].
        rewrite concat_cons_cons, IHj. reflexivity.
      * constructor; [reflexivity|exact IHf].
      * discriminate.
    + destruct (PyText.split_char c s) as [|piece pieces] eqn:Hs; [contradiction|].
      repeat split.
      * destruct pieces as [|piece' pieces].
        -- simpl in *. f_equal. exact IHj.
        -- rewrite concat_cons_cons in IHj |- *. rewrite <- IHj. reflexivity.
      * inversion IHf; subst. constructor; [simpl; rewrite Hx; assumption|assumption].
      * discriminate.
Qed.

End PathText.

Lemma str_app_assoc (a b d : string) : (a +:+ b) +:+ d = a +:+ (b +:+ d).
Proof.
  induction a as [|x a IH]; [reflexivity|].
  change (String x ((a +:+ b) +:+ d) = String x (a +:+ (b +:+ d))).
  rewrite IH. reflexivity.
Qed.

Lemma lstrip_char_clean c s :
  s <> "" -> has_char c s = false -> forall rest,
  PyText.lstrip_char c (s +:+ rest) = s +:+ rest.
Proof.
  destruct s as [|x s]; [contradiction|]. simpl. intros _ H rest.
  apply orb_false_iff in H as [Hx _]. rewrite Hx. reflexivity.
Qed.

Lemma split_pr_path owner repo pr_number :
  has_char "/" owner = false -> has_char "/" repo = false ->
  has_char "/" pr_number = false ->
  PyText.split_char "/" (pr_path_of owner repo pr_number)
  = [owner; repo; "pull"; pr_number].
Proof.
  intros Ho Hr Hn.
  change (pr_path_of owner repo pr_number)
    with (owner +:+ String "/" (repo +:+ String "/" ("pull" +:+ String "/" pr_number))).
  rewrite (split_char_app "/" owner _ Ho), (split_char_app "/" repo _ Hr).
  rewrite (split_char_app "/" "pull" pr_number eq_refl), (split_char_clean "/" _ Hn).
  reflexivity.
Qed.

(** X1. A well-formed path is parsed back into its three parts, whatever number
    of slashes surrounds it. *)
Theorem parse_pr_path_round_trip (owner repo pr_number : string) (lead trail : nat) :
  has_char "/" owner = false ->
  has_char "/" repo = false ->
  has_char "/" pr_number = false ->
  owner <> "" ->
  pr_number <> "" ->
  parse_pr_path (PyText.repeat_char "/" lead
                 +:+ pr_path_of owner repo pr_number
                 +:+ PyText.repeat_char "/" trail)
  = Returned (owner, repo, pr_number).
Proof.
  intros Ho Hr Hn Hone Hnne.
  assert (Hstrip : PyText.strip_char "/"
                     (PyText.repeat_char "/" lead
                      +:+ pr_path_of owner repo pr_number
                      +:+ PyText.repeat_char "/" trail)
                   = pr_path_of owner repo pr_number).
  { unfold PyText.strip_char, pr_path_of.
    rewrite !str_app_assoc.
    set (tail := pr_number +:+ PyText.repeat_char "/" trail).
    assert (Htail : PyText.rstrip_char "/" tail = pr_number)
      by (apply rstrip_char_clean; exact Hn).
    rewrite <- !str_app_assoc.
    rewrite rstrip_char_app by (rewrite Htail; exact Hnne).
    rewrite Htail, !str_app_assoc, lstrip_char_repeat.
    apply lstrip_char_clean; assumption. }
  unfold parse_pr_path. rewrite Hstrip, (split_pr_path _ _ _ Ho Hr Hn). reflexivity.
Qed.

Lemma parse_pr_path_round_trip_witness :
  has_char "/" "nlothian" = false
  /\ has_char "/" "Vibe-Prolog" = false
  /\ has_char "/" "10" = false
  /\ "nlothian" <> ""
  /\ "10" <> ""
  /\ parse_pr_path ("/" +:+ pr_path_of "nlothian" "Vibe-Prolog" "10" +:+ "//")
     = Returned ("nlothian", "Vibe-Prolog", "10").
Proof.
  assert (H1 : "nlothian" <> "") by discriminate.
  assert (H2 : "10" <> "") by discriminate.
  exact (conj eq_refl (conj eq_refl (conj eq_refl (conj H1 (conj H2
          (parse_pr_path_round_trip "nlothian" "Vibe-Prolog" "10" 1 2
             eq_refl eq_refl eq_refl H1 H2)))))).
Defined.

(** X2. The parser returns exactly on the paths that, without the surrounding
    slashes, read owner/repo/pull/number with no further slash; the number is
    not looked at. *)
Theorem parse_pr_path_returns_iff (pr_path owner repo pr_number : string) :
  parse_pr_path pr_path = Returned (owner, repo, pr_number)
  <-> PyText.strip_char "/" pr_path = pr_path_of owner repo pr_number
      /\ has_char "/" owner = false
      /\ has_char "/" repo = false
      /\ has_char "/" pr_number = false.
Proof.
  split.
  - unfold parse_pr_path.
    destruct (split_char_join "/" (PyText.strip_char "/" pr_path)) as (Hjoin & Hclean & _).
    destruct (PyText.split_char "/" (PyText.strip_char "/" pr_path))
      as [|o [|r [|third [|n [|extra rest]]]]]; try discriminate.
    destruct (String.eqb third "pull") eqn:Hthird; [|discriminate].
    apply String.eqb_eq in Hthird. subst third. intros [= -> -> ->].
    inversion Hclean as [|? ? Ho H1]; subst. inversion H1 as [|? ? Hr H2]; subst.
    inversion H2 as [|? ? _ H3]; subst. inversion H3 as [|? ? Hn _]; subst.
    repeat split; try assumption. rewrite <- Hjoin. reflexivity.
  - intros (Hstrip & Ho & Hr & Hn).
    unfold parse_pr_path. rewrite Hstrip, (split_pr_path _ _ _ Ho Hr Hn). reflexivity.
Qed.

Lemma parse_pr_path_returns_iff_witness :
  PyText.strip_char "/" "nlothian/Vibe-Prolog/pull/abc/"
  = pr_path_of "nlothian" "Vibe-Prolog" "abc"
  /\ parse_pr_path "nlothian/Vibe-Prolog/pull/abc/"
     = Returned ("nlothian", "Vibe-Prolog", "abc").
Proof.
  assert (H : PyText.strip_char "/" "nlothian/Vibe-Prolog/pull/abc/"
              = pr_path_of "nlothian" "Vibe-Prolog" "abc") by reflexivity.
  exact (conj H (proj2 (parse_pr_path_returns_iff "nlothian/Vibe-Prolog/pull/abc/"
                          "nlothian" "Vibe-Prolog" "abc")
                   (conj H (conj eq_refl (conj eq_refl eq_refl))))).
Defined.

(* ===================================================================== *)
(** * Properties of the page fetchers                                     *)
(* ===================================================================== *)

Lemma dig_raises v keys e : dig v keys = Raise e -> e = KeyError \/ e = TypeError.
Proof.
  revert v. induction keys as [|k keys IH]; intros v; simpl; [discriminate|].
  unfold Json.item. destruct v; simpl; try (intros [= <-]; auto).
  destruct (Json.assoc k fields) as [x|]; simpl; [apply IH|intros [= <-]; auto].
Qed.

Lemma dig_not_out_of_fuel v keys : dig v keys <> OutOfFuel.
Proof.
  revert v. induction keys as [|k keys IH]; intros v; simpl; [discriminate|].
  unfold Json.item. destruct v; simpl; try discriminate.
  destruct (Json.assoc k fields) as [x|]; simpl; [apply IH|discriminate].
Qed.

Lemma check_errors_falsy fields :
  absent_or_falsy "errors" fields = true -> Json.check_errors (JDict fields) = Ok tt.
Proof.
  unfold absent_or_falsy, Json.check_errors, Json.has, Json.item. simpl.
  destruct (Json.assoc "errors" fields) as [errors|]; simpl; [|reflexivity].
  intros H. apply negb_true_iff in H. rewrite H. reflexivity.
Qed.

Lemma check_errors_scalar payload :
  is_scalar payload = true -> Json.check_errors payload = Raise TypeError.
Proof. destruct payload; try discriminate; reflexivity. Qed.

(** The chains of subscripts of the fetchers, as one descent. *)
Lemma dig4_bind {B} v a b c d (K : json -> outcome B) :
  (x1 <- Json.item v a ;; x2 <- Json.item x1 b ;; x3 <- Json.item x2 c ;;
   x4 <- Json.item x3 d ;; K x4)%outcome
  = (x <- dig v [a; b; c; d] ;; K x)%outcome.
Proof.
  simpl. destruct (Json.item v a) as [x1| |]; simpl; try reflexivity.
  destruct (Json.item x1 b) as [x2| |]; simpl; try reflexivity.
  destruct (Json.item x2 c) as [x3| |]; simpl; try reflexivity.
  destruct (Json.item x3 d) as [x4| |]; reflexivity.
Qed.

Lemma dig5_bind {B} v a b c d e (K : json -> outcome B) :
  (x1 <- Json.item v a ;; x2 <- Json.item x1 b ;; x3 <- Json.item x2 c ;;
   x4 <- Json.item x3 d ;; x5 <- Json.item x4 e ;; K x5)%outcome
  = (x <- dig v [a; b; c; d; e] ;; K x)%outcome.
Proof.
  simpl. destruct (Json.item v a) as [x1| |]; simpl; try reflexivity.
  destruct (Json.item x1 b) as [x2| |]; simpl; try reflexivity.
  destruct (Json.item x2 c) as [x3| |]; simpl; try reflexivity.
  destruct (Json.item x3 d) as [x4| |]; simpl; try reflexivity.
  destruct (Json.item x4 e) as [x5| |]; reflexivity.
Qed.

Section PageFetchers.

Context {World : Type}.
Variable gh_api_graphql : World -> graphql_call -> graphql_reply * World.
Variables owner repo pr_number : string.

(** X3. A payload that is [null], a boolean or a number makes each GraphQL
    operation raise a bare [TypeError]: the test for the [errors] key is made
    outside the handlers that turn shape errors into [GitHubResponseError]. *)
Theorem scalar_payload_raises_type_error (payload : json) :
  is_scalar payload = true ->
  (forall cursor st w',
      gh_api_graphql (world st) (threads_call owner repo pr_number (cursor_field cursor))
      = (Stdout payload, w') ->
      fst (_fetch_review_threads_page gh_api_graphql owner repo pr_number cursor st)
      = Raise TypeError)
  /\ (forall cursor st w',
         gh_api_graphql (world st)
           (comments_call owner repo pr_number (cursor_field cursor))
         = (Stdout payload, w') ->
         fst (_fetch_thread_comments_page gh_api_graphql owner repo pr_number cursor st)
         = Raise TypeError)
  /\ (forall st w',
         gh_api_graphql (world st) (ci_failures_call owner repo pr_number)
         = (Stdout payload, w') ->
         fst (fetch_failed_ci_runs gh_api_graphql owner repo pr_number st)
         = Raise TypeError).
Proof.
  intros Hs. pose proof (check_errors_scalar payload Hs) as Hcheck.
  repeat split; intros.
  - unfold _fetch_review_threads_page, hbind, run_graphql.
    match goal with H : gh_api_graphql _ _ = _ |- _ => unfold threads_call in H; rewrite H end.
    unfold lift. rewrite Hcheck. reflexivity.
  - unfold _fetch_thread_comments_page, hbind, run_graphql.
    match goal with H : gh_api_graphql _ _ = _ |- _ => unfold comments_call in H; rewrite H end.
    unfold lift. rewrite Hcheck. reflexivity.
  - unfold fetch_failed_ci_runs, hbind, run_graphql.
    match goal with H : gh_api_graphql _ _ = _ |- _ => unfold ci_failures_call in H; rewrite H end.
    unfold lift. rewrite Hcheck. reflexivity.
Qed.

(** X4. A dict payload without errors in which one of the keys on the way to the
    wanted object is missing, or leads through a value that is not a dict,
    makes each operation raise [GitHubResponseError]. *)
Theorem missing_structure_raises_response_error (fields : list (string * json)) :
  absent_or_falsy "errors" fields = true ->
  (forall e cursor st w',
      dig (JDict fields) REVIEW_THREADS_PATH = Raise e ->
      gh_api_graphql (world st) (threads_call owner repo pr_number (cursor_field cursor))
      = (Stdout (JDict fields), w') ->
      fst (_fetch_review_threads_page gh_api_graphql owner repo pr_number cursor st)
      = Raise (GitHubResponseError
                 "Unexpected GraphQL response format when fetching review threads"))
  /\ (forall e cursor st w',
         dig (JDict fields) (REVIEW_THREADS_PATH ++ ["edges"]) = Raise e ->
         gh_api_graphql (world st)
           (comments_call owner repo pr_number (cursor_field cursor))
         = (Stdout (JDict fields), w') ->
         fst (_fetch_thread_comments_page gh_api_graphql owner repo pr_number cursor st)
         = Raise (GitHubResponseError
                    "Unexpected GraphQL response format when fetching thread comments"))
  /\ (forall e st w',
         dig (JDict fields) COMMITS_PATH = Raise e ->
         gh_api_graphql (world st) (ci_failures_call owner repo pr_number)
         = (Stdout (JDict fields), w') ->
         fst (fetch_failed_ci_runs gh_api_graphql owner repo pr_number st)
         = Raise (GitHubResponseError
                    "Unexpected GraphQL response format when fetching CI failures")).
Proof.
  intros Herr. pose proof (check_errors_falsy fields Herr) as Hcheck.
  repeat split; intros e; intros.
  - unfold _fetch_review_threads_page, hbind, run_graphql.
    match goal with H : gh_api_graphql _ _ = _ |- _ => unfold threads_call in H; rewrite H end.
    unfold lift. rewrite Hcheck. rewrite dig4_bind.
    match goal with H : dig _ _ = _ |- _ =>
      pose proof (dig_raises _ _ _ H) as He; unfold REVIEW_THREADS_PATH in H; rewrite H
    end.
    destruct He; subst e; reflexivity.
  - unfold _fetch_thread_comments_page, hbind, run_graphql.
    match goal with H : gh_api_graphql _ _ = _ |- _ => unfold comments_call in H; rewrite H end.
    unfold lift. rewrite Hcheck. rewrite dig5_bind.
    match goal with H : dig _ _ = _ |- _ =>
      pose proof (dig_raises _ _ _ H) as He; unfold REVIEW_THREADS_PATH in H;
      simpl app in H; rewrite H
    end.
    destruct He; subst e; reflexivity.
  - unfold fetch_failed_ci_runs, hbind, run_graphql.
    match goal with H : gh_api_graphql _ _ = _ |- _ => unfold ci_failures_call in H; rewrite H end.
    unfold lift. rewrite Hcheck. rewrite dig4_bind.
    match goal with H : dig _ _ = _ |- _ =>
      pose proof (dig_raises _ _ _ H) as He; unfold COMMITS_PATH in H; rewrite H
    end.
    destruct He; subst e; reflexivity.
Qed.

End PageFetchers.

(** The literal [null] as the payload of each operation. *)
Lemma scalar_payload_raises_type_error_witness :
  is_scalar JNull = true
  /\ fst (_fetch_review_threads_page Scripted.gh_api_graphql "owner" "repo" "10" JNull
            (init [Stdout JNull])) = Raise TypeError
  /\ fst (_fetch_thread_comments_page Scripted.gh_api_graphql "owner" "repo" "10"
            (JStr "c1") (init [Stdout JNull])) = Raise TypeError
  /\ fst (fetch_failed_ci_runs Scripted.gh_api_graphql "owner" "repo" "10"
            (init [Stdout JNull])) = Raise TypeError.
Proof.
  destruct (scalar_payload_raises_type_error Scripted.gh_api_graphql "owner" "repo"
              "10" JNull eq_refl) as (Hthreads & Hcomments & Hci).
  exact (conj eq_refl
          (conj (Hthreads JNull (init [Stdout JNull]) [] eq_refl)
             (conj (Hcomments (JStr "c1") (init [Stdout JNull]) [] eq_refl)
                (Hci (init [Stdout JNull]) [] eq_refl)))).
Defined.

(** A payload whose [data] is [null], as the API sends for a repository that
    cannot be read. *)
Lemma missing_structure_raises_response_error_witness :
  let fields := [("data", JNull)] in
  absent_or_falsy "errors" fields = true
  /\ dig (JDict fields) REVIEW_THREADS_PATH = Raise TypeError
  /\ fst (_fetch_review_threads_page Scripted.gh_api_graphql "owner" "repo" "10" JNull
            (init [Stdout (JDict fields)]))
     = Raise (GitHubResponseError
                "Unexpected GraphQL response format when fetching review threads")
  /\ fst (_fetch_thread_comments_page Scripted.gh_api_graphql "owner" "repo" "10"
            (JStr "c1") (init [Stdout (JDict fields)]))
     = Raise (GitHubResponseError
                "Unexpected GraphQL response format when fetching thread comments")
  /\ fst (fetch_failed_ci_runs Scripted.gh_api_graphql "owner" "repo" "10"
            (init [Stdout (JDict fields)]))
     = Raise (GitHubResponseError
                "Unexpected GraphQL response format when fetching CI failures").
Proof.
  intros fields.
  destruct (missing_structure_raises_response_error Scripted.gh_api_graphql "owner"
              "repo" "10" fields eq_refl) as (Hthreads & Hcomments & Hci).
  exact (conj eq_refl
          (conj eq_refl
             (conj (Hthreads TypeError JNull (init [Stdout (JDict fields)]) []
                      eq_refl eq_refl)
                (conj (Hcomments TypeError (JStr "c1") (init [Stdout (JDict fields)]) []
                         eq_refl eq_refl)
                   (Hci TypeError (init [Stdout (JDict fields)]) []
                      eq_refl eq_refl))))).
Defined.

(* ===================================================================== *)
(** * Properties of the pagination over well-formed pages                 *)
(* ===================================================================== *)

Lemma absent_or_falsy_default k fields (d : json) :
  absent_or_falsy k fields = true ->
  Json.or_else (match Json.assoc k fields with Some v => v | None => JNull end) d = d.
Proof.
  unfold absent_or_falsy, Json.or_else.
  destruct (Json.assoc k fields) as [v|]; [|reflexivity].
  intros H. apply negb_true_iff in H. rewrite H. reflexivity.
Qed.

Lemma append_comment_list_nodes path line comments : forall review_comments,
  append_comment_list (JStr path) (JInt line) (JInt line) (nodes_of comments)
    review_comments
  = Ok (review_comments ++ dicts_of path line comments).
Proof.
  induction comments as [|[login body] rest IH]; intros acc; simpl.
  - rewrite app_nil_r. reflexivity.
  - rewrite IH, <- app_assoc. reflexivity.
Qed.

Section WellFormedPages.

Context {World : Type}.
Variable gh_api_graphql : World -> graphql_call -> graphql_reply * World.
Variables owner repo pr_number : string.

(** A thread whose nested page is its only one is read without any call. *)
Lemma review_thread_edge_single_page fuel t review_comments st :
  review_thread_edge gh_api_graphql (S fuel) owner repo pr_number (edge_of t)
    review_comments st
  = (Ok (review_comments ++ thread_dicts t), st).
Proof.
  destruct t as [resolved path line comments]. unfold thread_dicts. simpl td_resolved.
  destruct resolved.
  - rewrite review_thread_edge_resolved by reflexivity. rewrite app_nil_r. reflexivity.
  - unfold edge_of, thread_edge, review_thread_edge, hbind, lift. simpl.
    unfold hbind, lift, append_comments. simpl.
    assert (Hnodes : Json.or_else (JList (nodes_of comments)) (JList [])
                     = JList (nodes_of comments)) by (destruct comments; reflexivity).
    rewrite Hnodes. simpl. rewrite append_comment_list_nodes. reflexivity.
Qed.

Lemma review_thread_edges_single_page fuel threads : forall review_comments st,
  review_thread_edges gh_api_graphql (S fuel) owner repo pr_number
    (map edge_of threads) review_comments st
  = (Ok (review_comments ++ page_dicts threads), st).
Proof.
  induction threads as [|t rest IH]; intros acc st.
  - simpl. rewrite app_nil_r. reflexivity.
  - simpl map. simpl review_thread_edges. unfold hbind.
    rewrite review_thread_edge_single_page, IH.
    unfold page_dicts. simpl. rewrite <- app_assoc. reflexivity.
Qed.

(** Without fuel for the inner loop the edges give their comments or stop
    there; they never raise. *)
Lemma review_thread_edges_no_fuel threads : forall review_comments st,
  exists o, review_thread_edges gh_api_graphql 0 owner repo pr_number
              (map edge_of threads) review_comments st = (o, st)
            /\ (o = OutOfFuel \/ exists cs, o = Ok cs).
Proof.
  induction threads as [|t rest IH]; intros acc st.
  - eexists. split; [reflexivity|]. right. eexists. reflexivity.
  - simpl map. simpl review_thread_edges. unfold hbind.
    destruct t as [resolved path line comments]. destruct resolved.
    + rewrite review_thread_edge_resolved by reflexivity. apply IH.
    + eexists. split; [reflexivity|]. left. reflexivity.
Qed.

End WellFormedPages.

Section ThreadPagination.

Variables owner repo pr_number : string.

Lemma review_threads_loop_pages pages : forall fuel after review_comments cs,
  pages <> [] ->
  (length pages < fuel)%nat ->
  review_threads_loop Scripted.gh_api_graphql fuel owner repo pr_number after
    review_comments {| world := page_replies pages; calls := cs |}
  = (Ok (review_comments ++ concat (map (fun page => page_dicts (fst page)) pages)),
     {| world := [];
        calls := cs ++ GraphQL (threads_call owner repo pr_number (cursor_field after))
                       :: next_calls owner repo pr_number pages |}).
Proof.
  induction pages as [|[threads cursor] rest IH]; intros fuel after acc cs Hne Hfuel;
    [contradiction|].
  destruct fuel as [|fuel]; [simpl in Hfuel; lia|].
  destruct fuel as [|fuel]; [simpl in Hfuel; lia|].
  rewrite (review_threads_loop_round Scripted.gh_api_graphql (S fuel) owner repo
             pr_number after (map edge_of threads)
             (match rest with [] => false | _ => true end) cursor acc
             {| world := page_replies ((threads, cursor) :: rest); calls := cs |}
             (page_replies rest) eq_refl).
  unfold hbind. rewrite review_thread_edges_single_page.
  destruct rest as [|page rest].
  - simpl. rewrite app_nil_r. reflexivity.
  - rewrite IH; [|discriminate|simpl in *; lia].
    simpl calls. rewrite <- !app_assoc. reflexivity.
Qed.

(** X5. The outer pagination is exhaustive and cursor-threaded: over pages of
    threads whose nested comment page is complete, every comment of every
    unresolved thread is returned once, in page, thread and comment order;
    every reply is consumed; and each request after the first carries the end
    cursor of the page before it. *)
Theorem review_threads_pagination_exhaustive
    (pages : list (list thread_data * json)) (fuel : nat) :
  pages <> [] ->
  (length pages < fuel)%nat ->
  fetch_review_comments_graphql Scripted.gh_api_graphql fuel owner repo pr_number
    (init (page_replies pages))
  = (Ok (concat (map (fun page => page_dicts (fst page)) pages)),
     {| world := [];
        calls := GraphQL (threads_call owner repo pr_number None)
                 :: next_calls owner repo pr_number pages |}).
Proof.
  intros Hne Hfuel. unfold fetch_review_comments_graphql, init.
  rewrite review_threads_loop_pages by assumption. reflexivity.
Qed.

End ThreadPagination.

(** Two pages of threads: a resolved and an open thread on the first, one
    open thread on the second. *)
Lemma review_threads_pagination_exhaustive_witness :
  let pages :=
    [([{| td_resolved := true; td_path := "old.py"; td_line := 1;
          td_comments := [("alice", "done")] |};
       {| td_resolved := false; td_path := "app.py"; td_line := 42;
          td_comments := [("bob", "first"); ("carol", "second")] |}], JStr "t1");
     ([{| td_resolved := false; td_path := "lib.py"; td_line := 7;
          td_comments := [("dave", "third")] |}], JNull)] in
  pages <> []
  /\ (length pages < 3)%nat
  /\ fetch_review_comments_graphql Scripted.gh_api_graphql 3 "owner" "repo" "10"
       (init (page_replies pages))
     = (Ok [comment_dict "app.py" 42 "bob" "first";
            comment_dict "app.py" 42 "carol" "second";
            comment_dict "lib.py" 7 "dave" "third"],
        {| world := [];
           calls := [GraphQL (threads_call "owner" "repo" "10" None);
                     GraphQL (threads_call "owner" "repo" "10" (Some (JStr "t1")))] |}).
Proof.
  intros pages.
  assert (Hne : pages <> []) by discriminate.
  assert (Hfuel : (length pages < 3)%nat) by (simpl; lia).
  exact (conj Hne (conj Hfuel
           (review_threads_pagination_exhaustive "owner" "repo" "10" pages 3 Hne Hfuel))).
Defined.

Section CommentPagination.

Context {World : Type}.
Variable gh_api_graphql : World -> graphql_call -> graphql_reply * World.
Variables owner repo pr_number : string.

(** X6. A thread of two comment pages is read in full with one request: the
    comments of the nested page, then those of the first thread of the reply,
    all filed under the path and line of the thread being read, whichever
    thread the reply names. *)
Theorem thread_of_two_comment_pages
    (fuel : nat) (path : string) (line : Z) (first_page : list (string * string))
    (cursor : json) (replied : thread_data) (more_edges : list json)
    (reply_has_next : bool) (reply_cursor : json)
    (review_comments : list json) (st : hstate World) (w' : World) :
  gh_api_graphql (world st) (comments_call owner repo pr_number (cursor_field cursor))
  = (Stdout (envelope (edge_of replied :: more_edges) reply_has_next reply_cursor), w') ->
  review_thread_edge gh_api_graphql (S fuel) owner repo pr_number
    (thread_edge false path line (nodes_of first_page) true cursor) review_comments st
  = (Ok (review_comments ++ dicts_of path line first_page
                         ++ dicts_of path line (td_comments replied)),
     {| world := w';
        calls := calls st
                 ++ [GraphQL (comments_call owner repo pr_number
                                (cursor_field cursor))] |}).
Proof.
  intros Hreply.
  unfold thread_edge, review_thread_edge, hbind, lift. simpl.
  unfold hbind, lift, append_comments. simpl.
  assert (Hnodes : forall cs, Json.or_else (JList (nodes_of cs)) (JList [])
                              = JList (nodes_of cs)) by (intros []; reflexivity).
  rewrite Hnodes. simpl. rewrite append_comment_list_nodes.
  unfold _fetch_thread_comments_page, hbind, run_graphql.
  unfold comments_call in Hreply. rewrite Hreply.
  destruct replied as [resolved rpath rline rcomments].
  unfold lift, edge_of, thread_edge. simpl.
  rewrite Hnodes. simpl. rewrite append_comment_list_nodes, <- app_assoc. reflexivity.
Qed.

(** X7. A reply to a thread-comments request that lists no thread is an empty
    last page, whatever the page information of its thread list says. *)
Theorem thread_comments_page_without_threads
    (cursor : json) (has_next : bool) (end_cursor : json)
    (st : hstate World) (w' : World) :
  gh_api_graphql (world st) (comments_call owner repo pr_number (cursor_field cursor))
  = (Stdout (envelope [] has_next end_cursor), w') ->
  _fetch_thread_comments_page gh_api_graphql owner repo pr_number cursor st
  = (Ok (JList [], JBool false, JNull),
     {| world := w';
        calls := calls st
                 ++ [GraphQL (comments_call owner repo pr_number
                                (cursor_field cursor))] |}).
Proof.
  intros Hreply.
  unfold _fetch_thread_comments_page, hbind, run_graphql.
  unfold comments_call in Hreply. rewrite Hreply. reflexivity.
Qed.

(** X8. A [reviewThreads] object whose [edges] and [pageInfo] are missing or
    null is an empty last page: the whole fetch returns no comment after its
    single request. *)
Theorem review_threads_without_edges
    (fields review_threads : list (string * json)) (fuel : nat) (w w' : World) :
  absent_or_falsy "errors" fields = true ->
  dig (JDict fields) REVIEW_THREADS_PATH = Ok (JDict review_threads) ->
  absent_or_falsy "edges" review_threads = true ->
  absent_or_falsy "pageInfo" review_threads = true ->
  gh_api_graphql w (threads_call owner repo pr_number None) = (Stdout (JDict fields), w') ->
  fetch_review_comments_graphql gh_api_graphql (S fuel) owner repo pr_number (init w)
  = (Ok [], {| world := w';
               calls := [GraphQL (threads_call owner repo pr_number None)] |}).
Proof.
  intros Herr Hdig Hedges Hinfo Hreply.
  unfold fetch_review_comments_graphql, init. cbn [review_threads_loop].
  unfold hbind at 1. unfold _fetch_review_threads_page, hbind, run_graphql.
  unfold threads_call in Hreply.
  change (cursor_field JNull) with (@None json). cbn [world]. rewrite Hreply.
  unfold lift. rewrite (check_errors_falsy fields Herr), dig4_bind.
  unfold REVIEW_THREADS_PATH in Hdig. rewrite Hdig. simpl.
  rewrite (absent_or_falsy_default "edges" review_threads (JList []) Hedges).
  rewrite (absent_or_falsy_default "pageInfo" review_threads (JDict []) Hinfo).
  reflexivity.
Qed.

End CommentPagination.

(** The second page comes back under another thread's name and is still
    filed under the thread being read. *)
Lemma thread_of_two_comment_pages_witness :
  let replied := {| td_resolved := true; td_path := "other.py"; td_line := 1;
                    td_comments := [("bob", "second")] |} in
  let st := init [Stdout (envelope [edge_of replied] true (JStr "t9"))] in
  Scripted.gh_api_graphql (world st)
    (comments_call "owner" "repo" "10" (cursor_field (JStr "c1")))
  = (Stdout (envelope [edge_of replied] true (JStr "t9")), [])
  /\ review_thread_edge Scripted.gh_api_graphql 1 "owner" "repo" "10"
       (thread_edge false "app.py" 42 (nodes_of [("alice", "first")]) true (JStr "c1"))
       [] st
     = (Ok [comment_dict "app.py" 42 "alice" "first";
            comment_dict "app.py" 42 "bob" "second"],
        {| world := [];
           calls := [GraphQL (comments_call "owner" "repo" "10" (Some (JStr "c1")))] |}).
Proof.
  intros replied st.
  assert (Hreply : Scripted.gh_api_graphql (world st)
                     (comments_call "owner" "repo" "10" (cursor_field (JStr "c1")))
                   = (Stdout (envelope [edge_of replied] true (JStr "t9")), []))
    by reflexivity.
  exact (conj Hreply
           (thread_of_two_comment_pages Scripted.gh_api_graphql "owner" "repo" "10" 0
              "app.py" 42 [("alice", "first")] (JStr "c1") replied [] true (JStr "t9")
              [] st [] Hreply)).
Defined.

Lemma thread_comments_page_without_threads_witness :
  let st := init [Stdout (envelope [] true (JStr "t9"))] in
  Scripted.gh_api_graphql (world st)
    (comments_call "owner" "repo" "10" (cursor_field (JStr "c1")))
  = (Stdout (envelope [] true (JStr "t9")), [])
  /\ _fetch_thread_comments_page Scripted.gh_api_graphql "owner" "repo" "10" (JStr "c1") st
     = (Ok (JList [], JBool false, JNull),
        {| world := [];
           calls := [GraphQL (comments_call "owner" "repo" "10" (Some (JStr "c1")))] |}).
Proof.
  intros st.
  assert (Hreply : Scripted.gh_api_graphql (world st)
                     (comments_call "owner" "repo" "10" (cursor_field (JStr "c1")))
                   = (Stdout (envelope [] true (JStr "t9")), [])) by reflexivity.
  exact (conj Hreply
           (thread_comments_page_without_threads Scripted.gh_api_graphql "owner" "repo"
              "10" (JStr "c1") true (JStr "t9") st [] Hreply)).
Defined.

(** A pull request whose [reviewThreads] object holds [null] for both. *)
Lemma review_threads_without_edges_witness :
  let review_threads := [("edges", JNull); ("pageInfo", JNull)] in
  let fields := [("data", JDict [("repository", JDict [("pullRequest",
                   JDict [("reviewThreads", JDict review_threads)])])])] in
  absent_or_falsy "errors" fields = true
  /\ dig (JDict fields) REVIEW_THREADS_PATH = Ok (JDict review_threads)
  /\ absent_or_falsy "edges" review_threads = true
  /\ absent_or_falsy "pageInfo" review_threads = true
  /\ fetch_review_comments_graphql Scripted.gh_api_graphql 1 "owner" "repo" "10"
       (init [Stdout (JDict fields)])
     = (Ok [], {| world := [];
                  calls := [GraphQL (threads_call "owner" "repo" "10" None)] |}).
Proof.
  intros review_threads fields.
  exact (conj eq_refl (conj eq_refl (conj eq_refl (conj eq_refl
           (review_threads_without_edges Scripted.gh_api_graphql "owner" "repo" "10"
              fields review_threads 0 [Stdout (JDict fields)] []
              eq_refl eq_refl eq_refl eq_refl eq_refl))))).
Defined.

(** X9. A page that reports a next page without a usable cursor is asked for
    again, for ever: with a host that always answers the first-page request
    with such a page, the fetch never returns. *)
Theorem missing_cursor_never_returns {World : Type}
    (gh_api_graphql : World -> graphql_call -> graphql_reply * World)
    (owner repo pr_number : string) (threads : list thread_data) (cursor : json) :
  cursor_field cursor = None ->
  (forall w, gh_api_graphql w (threads_call owner repo pr_number None)
             = (Stdout (envelope (map edge_of threads) true cursor), w)) ->
  forall fuel w,
    fst (fetch_review_comments_graphql gh_api_graphql fuel owner repo pr_number (init w))
    = OutOfFuel.
Proof.
  intros Hcursor Hhost fuel w. unfold fetch_review_comments_graphql.
  assert (Hloop : forall fuel after acc st,
             cursor_field after = None ->
             fst (review_threads_loop gh_api_graphql fuel owner repo pr_number
                    after acc st) = OutOfFuel).
  { clear fuel w. induction fuel as [|fuel IH]; intros after acc st Hafter;
      [reflexivity|].
    rewrite (review_threads_loop_round gh_api_graphql fuel owner repo pr_number after
               (map edge_of threads) true cursor acc st (world st))
      by (rewrite Hafter; apply Hhost).
    unfold hbind. destruct fuel as [|fuel].
    - destruct (review_thread_edges_no_fuel gh_api_graphql owner repo pr_number
                  threads acc
                  {| world := world st;
                     calls := calls st
                              ++ [GraphQL (threads_call owner repo pr_number
                                             (cursor_field after))] |})
        as (o & Ho & [->|[cs' ->]]); rewrite Ho; reflexivity.
    - rewrite review_thread_edges_single_page. apply IH. exact Hcursor. }
  apply Hloop. reflexivity.
Qed.

Lemma missing_cursor_never_returns_witness :
  cursor_field JNull = None
  /\ (forall w, Cursorless.gh_api_graphql w (threads_call "owner" "repo" "10" None)
                = (Stdout Cursorless.page, w))
  /\ forall fuel,
       fst (fetch_review_comments_graphql Cursorless.gh_api_graphql fuel
              "owner" "repo" "10" (init tt)) = OutOfFuel.
Proof.
  assert (Hhost : forall w, Cursorless.gh_api_graphql w
                              (threads_call "owner" "repo" "10" None)
                            = (Stdout Cursorless.page, w)) by (intros []; reflexivity).
  exact (conj eq_refl (conj Hhost
           (fun fuel =>
              missing_cursor_never_returns Cursorless.gh_api_graphql "owner" "repo" "10"
                [{| td_resolved := false; td_path := "app.py"; td_line := 42;
                    td_comments := [("alice", "first")] |}] JNull eq_refl Hhost
                fuel tt))).
Defined.

(* ===================================================================== *)
(** * Properties of the failed CI runs                                    *)
(* ===================================================================== *)

Lemma failed_contexts_filter contexts : forall failed_runs,
  failed_contexts (map context_of contexts) failed_runs
  = Ok (failed_runs ++ map failed_run_dict (List.filter is_failed_check_run contexts)).
Proof.
  induction contexts as [|c rest IH]; intros acc; simpl.
  - rewrite app_nil_r. reflexivity.
  - destruct c as [name [conclusion|] details_url [[run_id url]|]|context state target_url];
      simpl; try (rewrite IH; reflexivity).
    + unfold is_str. destruct (String.eqb conclusion "FAILURE"); simpl; rewrite IH;
        [rewrite <- app_assoc|]; reflexivity.
    + unfold is_str. destruct (String.eqb conclusion "FAILURE"); simpl; rewrite IH;
        [rewrite <- app_assoc|]; reflexivity.
Qed.

Lemma or_else_list_map {A} (f : A -> json) (l : list A) :
  Json.or_else (JList (map f l)) (JList []) = JList (map f l).
Proof. destruct l; reflexivity. Qed.

Lemma failed_commit_nodes_filter commits : forall failed_runs,
  failed_commit_nodes (map commit_node commits) failed_runs
  = Ok (failed_runs
        ++ map failed_run_dict (List.filter is_failed_check_run (concat commits))).
Proof.
  induction commits as [|contexts rest IH]; intros acc.
  - simpl. rewrite app_nil_r. reflexivity.
  - cbn [map failed_commit_nodes commit_node]. simpl Json.get. cbn [obind].
    simpl Json.or_else. cbn [Json.get Json.assoc String.eqb Ascii.eqb Bool.eqb].
    simpl. rewrite or_else_list_map. simpl.
    rewrite failed_contexts_filter. simpl. rewrite IH.
    rewrite List.filter_app, map_app, app_assoc. reflexivity.
Qed.

(** X10. The failed runs are the check runs whose conclusion is [FAILURE], in the
    order of the payload: a check run of another conclusion and a commit
    status of any state are left out. *)
Theorem failed_ci_runs_are_failed_check_runs {World : Type}
    (gh_api_graphql : World -> graphql_call -> graphql_reply * World)
    (owner repo pr_number : string) (commits : list (list rollup_context))
    (st : hstate World) (w' : World) :
  gh_api_graphql (world st) (ci_failures_call owner repo pr_number)
  = (Stdout (ci_envelope commits), w') ->
  fetch_failed_ci_runs gh_api_graphql owner repo pr_number st
  = (Ok (map failed_run_dict (List.filter is_failed_check_run (concat commits))),
     {| world := w';
        calls := calls st ++ [GraphQL (ci_failures_call owner repo pr_number)] |}).
Proof.
  intros Hreply. unfold fetch_failed_ci_runs, hbind, run_graphql.
  unfold ci_failures_call in Hreply. rewrite Hreply.
  unfold lift, ci_envelope. simpl. rewrite or_else_list_map. simpl.
  rewrite failed_commit_nodes_filter. reflexivity.
Qed.

(** One commit with a failed check run, a cancelled one, a failed commit
    status and a failed check run without workflow run. *)
Lemma failed_ci_runs_are_failed_check_runs_witness :
  let commits :=
    [[CheckRun "CI" (Some "FAILURE") "https://example.com/ci"
        (Some (10, "https://example.com/runs/10"));
      CheckRun "Lint" (Some "CANCELLED") "https://example.com/lint" (Some (11, "u"));
      StatusContext "ci/external" "FAILURE" "https://example.com/status";
      CheckRun "External Check" (Some "FAILURE") "https://example.com/ext" None]] in
  let st := init [Stdout (ci_envelope commits)] in
  Scripted.gh_api_graphql (world st) (ci_failures_call "owner" "repo" "10")
  = (Stdout (ci_envelope commits), [])
  /\ fetch_failed_ci_runs Scripted.gh_api_graphql "owner" "repo" "10" st
     = (Ok [JDict [("name", JStr "CI"); ("details_url", JStr "https://example.com/ci");
                   ("workflow_run_id", JInt 10);
                   ("workflow_url", JStr "https://example.com/runs/10")];
            JDict [("name", JStr "External Check");
                   ("details_url", JStr "https://example.com/ext");
                   ("workflow_run_id", JNull); ("workflow_url", JNull)]],
        {| world := [];
           calls := [GraphQL (ci_failures_call "owner" "repo" "10")] |}).
Proof.
  intros commits st.
  assert (Hreply : Scripted.gh_api_graphql (world st)
                     (ci_failures_call "owner" "repo" "10")
                   = (Stdout (ci_envelope commits), [])) by reflexivity.
  exact (conj Hreply
           (failed_ci_runs_are_failed_check_runs Scripted.gh_api_graphql "owner" "repo"
              "10" commits st [] Hreply)).
Defined.

(* ===================================================================== *)
(** * Properties of the dedup key                                         *)
(* ===================================================================== *)

Lemma first_occurrences_all runs : forall seen,
  List.NoDup (map dedup_key runs) ->
  (forall run, In run runs -> dedup_key run ∉ seen) ->
  first_occurrences seen runs = runs.
Proof.
  induction runs as [|r rest IH]; intros seen Hnd Hnot; [reflexivity|].
  simpl. inversion Hnd as [|k ks Hk Hrest]; subst.
  rewrite bool_decide_eq_false_2 by (apply Hnot; left; reflexivity).
  f_equal. apply IH; [exact Hrest|].
  intros run Hrun Hel. apply elem_of_union in Hel as [Hel|Hel].
  - apply elem_of_singleton in Hel. apply Hk. rewrite <- Hel.
    apply in_map. exact Hrun.
  - apply (Hnot run); [right; exact Hrun|exact Hel].
Qed.

(** X11. Runs of pairwise distinct dedup keys are all kept: the collector
    returns one entry per run, in order, and asks for the log of every run
    that has an id, in order. *)
Theorem collect_ci_failures_keeps_distinct_runs {World : Type}
    (gh_run_view : World -> string -> run_view_reply * World)
    (failed_runs : list FailedRun.t) (include_full_logs : bool) (st : hstate World) :
  List.NoDup (map dedup_key failed_runs) ->
  exists ci_failures,
    fst (collect_ci_failures gh_run_view failed_runs include_full_logs st) = Ok ci_failures
    /\ Forall2 entry_of failed_runs ci_failures
    /\ calls (snd (collect_ci_failures gh_run_view failed_runs include_full_logs st))
       = calls st ++ log_calls failed_runs.
Proof.
  intros Hnd. unfold collect_ci_failures.
  destruct (collect_runs_spec gh_run_view failed_runs include_full_logs ∅ [] st)
    as (out & Hout & Hent & _ & Hcalls).
  rewrite (first_occurrences_all failed_runs ∅ Hnd) in Hent, Hcalls
    by (intros run _; apply not_elem_of_empty).
  exists out. exact (conj Hout (conj Hent Hcalls)).
Qed.

(** Two runs of different workflow runs and a check without one. *)
Lemma collect_ci_failures_keeps_distinct_runs_witness :
  let runs := [ci_run "CI" (Some 10); ci_run "External Check" None;
               ci_run "CI" (Some 11)] in
  let st := init [RunViewStdout "first log"; RunViewStdout "second log"] in
  List.NoDup (map dedup_key runs)
  /\ exists ci_failures,
       fst (collect_ci_failures Scripted.gh_run_view runs false st) = Ok ci_failures
       /\ Forall2 entry_of runs ci_failures
       /\ calls (snd (collect_ci_failures Scripted.gh_run_view runs false st))
          = calls st ++ log_calls runs.
Proof.
  intros runs st.
  assert (Hnd : List.NoDup (map dedup_key runs)).
  { vm_compute. repeat constructor; simpl; intuition discriminate. }
  exact (conj Hnd
           (collect_ci_failures_keeps_distinct_runs Scripted.gh_run_view runs false st Hnd)).
Defined.

Lemma str_length_app a b :
  String.length (a +:+ b) = (String.length a + String.length b)%nat.
Proof.
  induction a as [|x a IH]; [reflexivity|].
  change (String x a +:+ b) with (String x (a +:+ b)). simpl. rewrite IH. reflexivity.
Qed.

Lemma str_app_nonempty a b : b <> "" -> a +:+ b <> "".
Proof.
  destruct a as [|x a]; [intros H; exact H|].
  intros _. change (String x a +:+ b) with (String x (a +:+ b)). discriminate.
Qed.

Lemma name_or_default_nonempty name : name <> "" -> name_or_default (Some name) = name.
Proof.
  intros Hne. unfold name_or_default, Py.truthy_str. simpl.
  destruct (String.eqb name "") eqn:Heq; [|reflexivity].
  apply String.eqb_eq in Heq. contradiction.
Qed.

Lemma colon_key_collision a b c :
  a <> "" ->
  dedup_key (run_without_id (a +:+ ":" +:+ b) c)
  = dedup_key (run_without_id a (b +:+ ":" +:+ c)).
Proof.
  intros Ha. unfold dedup_key, run_without_id. simpl.
  rewrite (name_or_default_nonempty a Ha).
  rewrite name_or_default_nonempty by (apply str_app_nonempty; discriminate).
  rewrite !str_app_assoc. reflexivity.
Qed.

(** X12. The key of a run without id is the name, a colon and the details URL
    run together, so a colon may be read on either side: the checks named
    [a:b] at URL [c] and named [a] at URL [b:c] are two checks with one key,
    and the collector reports the first of them only. *)
Theorem collect_ci_failures_merges_colon_names {World : Type}
    (gh_run_view : World -> string -> run_view_reply * World)
    (a b c : string) (include_full_logs : bool) (st : hstate World) :
  a <> "" ->
  let first := run_without_id (a +:+ ":" +:+ b) c in
  let second := run_without_id a (b +:+ ":" +:+ c) in
  FailedRun.name first <> FailedRun.name second
  /\ exists entry,
       fst (collect_ci_failures gh_run_view [first; second] include_full_logs st)
       = Ok [entry]
       /\ entry_of first entry.
Proof.
  intros Ha first second. split.
  - unfold first, second, run_without_id. simpl. intros [= Heq].
    apply (f_equal String.length) in Heq.
    rewrite !str_length_app in Heq. simpl in Heq. lia.
  - unfold collect_ci_failures.
    destruct (collect_runs_spec gh_run_view [first; second] include_full_logs ∅ [] st)
      as (out & Hout & Hent & _).
    assert (Hkept : first_occurrences ∅ [first; second] = [first]).
    { simpl. rewrite bool_decide_eq_false_2 by apply not_elem_of_empty.
      rewrite bool_decide_eq_true_2; [reflexivity|].
      apply elem_of_union. left. apply elem_of_singleton.
      symmetry. apply colon_key_collision. exact Ha. }
    rewrite Hkept in Hent.
    inversion Hent as [|r f rs fs Hf Hrest]; subst.
    inversion Hrest; subst.
    exists f. split; [exact Hout|exact Hf].
Qed.

(** The checks [build:linux] at [x] and [build] at [linux:x]. *)
Lemma collect_ci_failures_merges_colon_names_witness :
  let first := run_without_id ("build" +:+ ":" +:+ "linux") "x" in
  "build" <> ""
  /\ exists entry,
       fst (collect_ci_failures Scripted.gh_run_view
              [first; run_without_id "build" ("linux" +:+ ":" +:+ "x")] false (init []))
       = Ok [entry]
       /\ entry_of first entry.
Proof.
  intros first.
  assert (Hne : "build" <> "") by discriminate.
  exact (conj Hne
           (proj2 (collect_ci_failures_merges_colon_names Scripted.gh_run_view
                     "build" "linux" "x" false (init []) Hne))).
Defined.

(* ===================================================================== *)
(** * Properties of the rendered text                                     *)
(* ===================================================================== *)

Lemma join_cons_cons sep x y l :
  Py.join sep (x :: y :: l) = x +:+ sep +:+ Py.join sep (y :: l).
Proof. reflexivity. Qed.

(** With something to report, a text that is returned begins with the title
    line and an empty line. *)
Lemma format_titled review_comments issue_comments owner repo pr_number ci_failures :
  nonempty issue_comments || nonempty review_comments
  || nonempty (default [] ci_failures) = true ->
  format_comments_as_markdown review_comments issue_comments owner repo pr_number
    ci_failures = Raise AttributeError
  \/ exists rest,
       format_comments_as_markdown review_comments issue_comments owner repo pr_number
         ci_failures = Ok (title_line owner repo pr_number +:+ LF +:+ rest).
Proof.
  intros Hsome. unfold format_comments_as_markdown.
  destruct (render_file_sections_cases (file_sections review_comments))
    as [[Hr _]|(out & Hr & _)]; rewrite Hr.
  - destruct review_comments as [|c cs].
    + simpl in Hr. discriminate.
    + left. reflexivity.
  - right. fold (title_line owner repo pr_number).
    destruct issue_comments as [|i ics], review_comments as [|c cs],
      (default [] ci_failures) as [|f fs]; simpl in Hsome; try discriminate;
      cbn [nonempty negb andb obind app]; eexists; rewrite join_cons_cons; reflexivity.
Qed.

(** X13. A review comment whose [diff_hunk] is [None] makes the renderer
    raise [AttributeError], wherever the comment stands in the list and
    whatever the other review comments, the issue comments and the CI
    failures are. *)
Theorem format_raises_when_diff_hunk_is_none
    (review_comments : list ReviewComment.t) (issue_comments : list IssueComment.t)
    (owner repo pr_number : string) (ci_failures : option (list CIFailure.t))
    (c : ReviewComment.t) :
  In c review_comments ->
  ReviewComment.diff_hunk c = None ->
  format_comments_as_markdown review_comments issue_comments owner repo pr_number
    ci_failures = Raise AttributeError.
Proof.
  intros Hin Hnone.
  destruct (format_comments_as_markdown_cases review_comments issue_comments owner repo
              pr_number ci_failures) as [[Hr _]|(text & _ & Hall)]; [exact Hr|].
  exfalso. exact (Hall c Hin Hnone).
Qed.

(** A comment without [diff_hunk] after one that has it, in another file. *)
Lemma format_raises_when_diff_hunk_is_none_witness :
  let c := {| ReviewComment.path := "app.py"; ReviewComment.line := Some 42;
              ReviewComment.start_line := None; ReviewComment.original_line := Some 42;
              ReviewComment.diff_hunk := None; ReviewComment.user_login := "reviewer1";
              ReviewComment.body := "Add type hints"; ReviewComment.url := None |} in
  In c [line_comment "lib.py" 5; c]
  /\ ReviewComment.diff_hunk c = None
  /\ format_comments_as_markdown [line_comment "lib.py" 5; c] [] "owner" "repo" "10" None
     = Raise AttributeError.
Proof.
  intros c.
  assert (Hin : In c [line_comment "lib.py" 5; c]) by (right; left; reflexivity).
  exact (conj Hin (conj eq_refl
           (format_raises_when_diff_hunk_is_none [line_comment "lib.py" 5; c] []
              "owner" "repo" "10" None c Hin eq_refl))).
Defined.

(** X14. With at least one issue comment, review comment or CI failure, and a
    [diff_hunk] string in every review comment, the renderer returns a text
    that begins with the title line naming the pull request, followed by an
    empty line. *)
Theorem format_begins_with_title
    (review_comments : list ReviewComment.t) (issue_comments : list IssueComment.t)
    (owner repo pr_number : string) (ci_failures : option (list CIFailure.t)) :
  nonempty issue_comments || nonempty review_comments
  || nonempty (default [] ci_failures) = true ->
  (forall c, In c review_comments -> ReviewComment.diff_hunk c <> None) ->
  exists rest,
    format_comments_as_markdown review_comments issue_comments owner repo pr_number
      ci_failures
    = Ok ("# PR Comments: " +:+ owner +:+ "/" +:+ repo +:+ "#" +:+ pr_number +:+ LF
          +:+ LF +:+ rest).
Proof.
  intros Hsome Hall.
  destruct (format_titled review_comments issue_comments owner repo pr_number
              ci_failures Hsome) as [Hraise|(rest & Hr)].
  - exfalso.
    destruct (format_comments_as_markdown_cases review_comments issue_comments owner
                repo pr_number ci_failures) as [[_ (c & Hin & Hnone)]|(text & Hr & _)].
    + exact (Hall c Hin Hnone).
    + rewrite Hraise in Hr. discriminate.
  - exists rest. rewrite Hr. unfold title_line. rewrite !str_app_assoc. reflexivity.
Qed.

(** One issue comment and nothing else. *)
Lemma format_begins_with_title_witness :
  let issue := {| IssueComment.user_login := "alice"; IssueComment.body := "Looks good" |} in
  nonempty [issue] || nonempty (@nil ReviewComment.t)
  || nonempty (default [] (@None (list CIFailure.t))) = true
  /\ exists rest,
       format_comments_as_markdown [] [issue] "nlothian" "Vibe-Prolog" "10" None
       = Ok ("# PR Comments: " +:+ "nlothian" +:+ "/" +:+ "Vibe-Prolog" +:+ "#" +:+ "10"
             +:+ LF +:+ LF +:+ rest).
Proof.
  intros issue.
  assert (Hsome : nonempty [issue] || nonempty (@nil ReviewComment.t)
                  || nonempty (default [] (@None (list CIFailure.t))) = true)
    by reflexivity.
  exact (conj Hsome
           (format_begins_with_title [] [issue] "nlothian" "Vibe-Prolog" "10" None
              Hsome (fun c (H : In c []) => match H with end))).
Defined.

(** X15. The text "No comments found on this PR." is returned exactly when there
    is no issue comment, no review comment and no CI failure: no input with
    something to report is rendered as that text. *)
Theorem format_empty_signal_iff
    (review_comments : list ReviewComment.t) (issue_comments : list IssueComment.t)
    (owner repo pr_number : string) (ci_failures : option (list CIFailure.t)) :
  format_comments_as_markdown review_comments issue_comments owner repo pr_number
    ci_failures = Ok ("No comments found on this PR." +:+ LF)
  <-> issue_comments = [] /\ review_comments = [] /\ default [] ci_failures = [].
Proof.
  split.
  - intros Hres.
    destruct issue_comments as [|i ics], review_comments as [|c cs],
      (default [] ci_failures) as [|f fs] eqn:Hf; try (repeat split; reflexivity);
      exfalso;
      match type of Hres with
      | format_comments_as_markdown ?rc ?ic _ _ _ _ = _ =>
          destruct (format_titled rc ic owner repo pr_number ci_failures)
            as [Hraise|(rest & Hr)];
          [rewrite Hf; reflexivity
          |rewrite Hraise in Hres; discriminate
          |rewrite Hr in Hres; unfold title_line in Hres; discriminate]
      end.
  - intros (-> & -> & Hf). unfold format_comments_as_markdown. simpl. rewrite Hf.
    reflexivity.
Qed.

Lemma format_empty_signal_iff_witness :
  format_comments_as_markdown [] [] "nlothian" "Vibe-Prolog" "10" (Some [])
  = Ok ("No comments found on this PR." +:+ LF)
  /\ @nil IssueComment.t = [] /\ @nil ReviewComment.t = []
  /\ default [] (Some (@nil CIFailure.t)) = [].
Proof.
  assert (Hempty : @nil IssueComment.t = [] /\ @nil ReviewComment.t = []
                   /\ default [] (Some (@nil CIFailure.t)) = [])
    by (repeat split; reflexivity).
  exact (conj (proj2 (format_empty_signal_iff [] [] "nlothian" "Vibe-Prolog" "10"
                        (Some [])) Hempty) Hempty).
Defined.

Lemma setdefault_append_concat p c groups :
  Permutation (concat (map snd (setdefault_append p c groups)))
              (concat (map snd groups) ++ [c]).
Proof.
  induction groups as [|[q cs] rest IH]; simpl; [reflexivity|].
  destruct (String.eqb q p); simpl.
  - rewrite <- !app_assoc. apply Permutation_app_head. apply Permutation_app_comm.
  - rewrite <- app_assoc. apply Permutation_app_head. exact IH.
Qed.

Lemma group_fold_concat cs : forall groups,
  Permutation
    (concat (map snd (fold_left (fun by_file c =>
                                   setdefault_append (ReviewComment.path c) c by_file)
                                cs groups)))
    (concat (map snd groups) ++ cs).
Proof.
  induction cs as [|c rest IH]; intros groups; simpl.
  - rewrite app_nil_r. reflexivity.
  - rewrite IH, setdefault_append_concat, <- app_assoc. reflexivity.
Qed.

Lemma concat_snd_perm {K A} (l l' : list (K * list A)) :
  Permutation l l' -> Permutation (concat (map snd l)) (concat (map snd l')).
Proof.
  induction 1 as [|x l l' _ IH|x y l|l l' l'' _ IH1 _ IH2]; simpl.
  - reflexivity.
  - apply Permutation_app_head. exact IH.
  - rewrite !app_assoc. apply Permutation_app_tail. apply Permutation_app_comm.
  - etransitivity; eassumption.
Qed.

Lemma concat_sorted_groups (groups : list (string * list ReviewComment.t)) :
  Permutation
    (concat (map snd (map (fun item => (fst item, stable_sort key_leb (snd item))) groups)))
    (concat (map snd groups)).
Proof.
  induction groups as [|[p cs] rest IH]; simpl; [reflexivity|].
  apply Permutation_app; [apply stable_sort_perm|exact IH].
Qed.

(** X16. Grouping and sorting neither drop nor repeat a comment: the comments of
    the file sections, taken together, are the review comments of the input,
    each as often as it was given. *)
Theorem file_sections_keep_every_comment (review_comments : list ReviewComment.t) :
  Permutation (concat (map snd (file_sections review_comments))) review_comments.
Proof.
  unfold file_sections. rewrite concat_sorted_groups.
  rewrite (concat_snd_perm _ _ (stable_sort_perm item_leb (group_by_file review_comments))).
  unfold group_by_file. rewrite group_fold_concat. reflexivity.
Qed.

(* ===================================================================== *)
(** * Properties of the summary text                                      *)
(* ===================================================================== *)

Lemma lstrip_idem s : Py.lstrip (Py.lstrip s) = Py.lstrip s.
Proof.
  induction s as [|c s IH]; [reflexivity|]. simpl.
  destruct (Py.is_space c) eqn:Hc; [exact IH|]. simpl. rewrite Hc. reflexivity.
Qed.

Lemma rstrip_idem s : Py.rstrip (Py.rstrip s) = Py.rstrip s.
Proof.
  induction s as [|c s IH]; [reflexivity|]. simpl.
  destruct (Py.rstrip s) as [|d r] eqn:Hr.
  - destruct (Py.is_space c) eqn:Hc; [reflexivity|]. simpl. rewrite Hc. reflexivity.
  - cbn [Py.rstrip]. cbn [Py.rstrip] in IH. rewrite IH. reflexivity.
Qed.

Lemma rstrip_lstrip_fixed t : Py.rstrip t = t -> Py.rstrip (Py.lstrip t) = Py.lstrip t.
Proof.
  induction t as [|c t IH]; [reflexivity|]. intros Hfix.
  cbn [Py.lstrip]. destruct (Py.is_space c) eqn:Hc; [|exact Hfix].
  apply IH. cbn [Py.rstrip] in Hfix. rewrite Hc in Hfix.
  destruct (Py.rstrip t) as [|d r]; [discriminate|].
  injection Hfix as Hfix. exact Hfix.
Qed.

Lemma rstrip_strip s : Py.rstrip (Py.strip s) = Py.strip s.
Proof. unfold Py.strip. apply rstrip_lstrip_fixed, rstrip_idem. Qed.

Lemma strip_idem s : Py.strip (Py.strip s) = Py.strip s.
Proof.
  unfold Py.strip at 1. rewrite rstrip_strip. unfold Py.strip. apply lstrip_idem.
Qed.

(** X17. A summary has no white space at its ends, so the [rstrip] of the
    renderer leaves it as it is; and a log of white space only is summarized
    as the empty text, which the renderer reports as having no logs. *)
Theorem summary_is_trimmed (log_output : string) :
  let summary := _summarize_ci_log log_output false in
  Py.strip summary = summary
  /\ Py.rstrip summary = summary
  /\ (Py.strip log_output = "" -> summary = "").
Proof.
  intros summary.
  assert (Hcases : summary = "" \/ exists text, summary = Py.strip text).
  { unfold summary, _summarize_ci_log. simpl orb.
    destruct (String.eqb log_output "") eqn:Heq.
    - left. apply String.eqb_eq. exact Heq.
    - destruct (Py.splitlines (Py.strip log_output)); [left; reflexivity|].
      right. eexists. reflexivity. }
  split; [|split].
  - destruct Hcases as [->|(text & ->)]; [reflexivity|apply strip_idem].
  - destruct Hcases as [->|(text & ->)]; [reflexivity|apply rstrip_strip].
  - intros Hblank. unfold summary, _summarize_ci_log. simpl orb.
    destruct (String.eqb log_output "") eqn:Heq.
    + apply String.eqb_eq. exact Heq.
    + rewrite Hblank. reflexivity.
Qed.

(** A log of two blank lines. *)
Lemma summary_is_trimmed_witness :
  let log_output := "  " +:+ LF +:+ " " +:+ LF in
  Py.strip log_output = "" /\ _summarize_ci_log log_output false = "".
Proof.
  intros log_output.
  assert (Hblank : Py.strip log_output = "") by reflexivity.
  exact (conj Hblank
           (proj2 (proj2 (summary_is_trimmed log_output)) Hblank)).
Defined.

(* ===================================================================== *)
(** * Fetched comments as the renderer reads them                         *)
(* ===================================================================== *)

Lemma review_comment_dict_inv path line start_line node d :
  review_comment_dict path line start_line node = Ok d ->
  exists fields author_login,
    node = JDict fields
    /\ d = JDict [("path", path); ("line", line); ("start_line", start_line);
                  ("original_line", line);
                  ("diff_hunk", match Json.assoc "diffHunk" fields with
                                | Some v => v | None => JNull end);
                  ("user", JDict [("login", author_login)]);
                  ("body", match Json.assoc "body" fields with
                           | Some v => v | None => JStr "" end);
                  ("url", match Json.assoc "url" fields with
                          | Some v => v | None => JNull end)].
Proof.
  unfold review_comment_dict. destruct node as [| | | | |fields]; try discriminate.
  simpl.
  destruct (Json.get _ "login" (JStr "unknown")) as [login| |]; simpl; try discriminate.
  intros [= <-]. exists fields, login. split; reflexivity.
Qed.

(** X18. A comment built from a thread carries the thread's line as its
    [original_line] too, so the renderer's sort key for it is the line, 0
    when the thread has none; and it has no [diff_hunk] string exactly when
    the comment node has no [diffHunk] or a null one. *)
Theorem fetched_comment_sort_key_is_line
    (path line start_line node d : json) (c : ReviewComment.t) :
  review_comment_dict path line start_line node = Ok d ->
  read_review_comment d = Some c ->
  ReviewComment.original_line c = ReviewComment.line c
  /\ sort_key c = default 0 (ReviewComment.line c)
  /\ (ReviewComment.diff_hunk c = None <-> Json.get node "diffHunk" JNull = Ok JNull).
Proof.
  intros Hd Hread.
  apply review_comment_dict_inv in Hd as (fields & login & -> & ->).
  revert Hread. unfold read_review_comment, Json.get. simpl.
  destruct path as [| | |p| |]; simpl; try discriminate.
  destruct login as [|lb|ln|u|ll|lf]; simpl; try discriminate;
    destruct line as [| |n| | |]; simpl; try discriminate;
    (destruct start_line as [| |sl| | |]; simpl; try discriminate;
     destruct (Json.assoc "diffHunk" fields) as [[| | |dh| |]|]; simpl;
     try discriminate;
     destruct (Json.assoc "body" fields) as [[| | |b| |]|]; simpl; try discriminate;
     destruct (Json.assoc "url" fields) as [[| | |url| |]|]; simpl; try discriminate;
     intros [= <-]; simpl;
     (split; [reflexivity|]; split;
      [unfold sort_key; simpl;
       try (destruct (n =? 0) eqn:Hn; simpl; [apply Z.eqb_eq in Hn; congruence|]);
       reflexivity
      |split; intros H; try reflexivity; discriminate])).
Qed.

(** A comment of a thread without line whose [diffHunk] is null. *)
Lemma fetched_comment_sort_key_is_line_witness :
  let node := JDict [("author", JDict [("login", JStr "reviewer1")]);
                     ("body", JStr "Add type hints"); ("url", JStr "http://...");
                     ("diffHunk", JNull)] in
  let d := JDict [("path", JStr "app.py"); ("line", JNull); ("start_line", JNull);
                  ("original_line", JNull); ("diff_hunk", JNull);
                  ("user", JDict [("login", JStr "reviewer1")]);
                  ("body", JStr "Add type hints"); ("url", JStr "http://...")] in
  let c := {| ReviewComment.path := "app.py"; ReviewComment.line := None;
              ReviewComment.start_line := None; ReviewComment.original_line := None;
              ReviewComment.diff_hunk := None; ReviewComment.user_login := "reviewer1";
              ReviewComment.body := "Add type hints";
              ReviewComment.url := Some "http://..." |} in
  review_comment_dict (JStr "app.py") JNull JNull node = Ok d
  /\ read_review_comment d = Some c
  /\ sort_key c = 0
  /\ ReviewComment.diff_hunk c = None.
Proof.
  intros node d c.
  assert (Hd : review_comment_dict (JStr "app.py") JNull JNull node = Ok d)
    by reflexivity.
  assert (Hc : read_review_comment d = Some c) by reflexivity.
  destruct (fetched_comment_sort_key_is_line (JStr "app.py") JNull JNull node d c Hd Hc)
    as (_ & Hkey & Hhunk).
  exact (conj Hd (conj Hc (conj Hkey (proj2 Hhunk eq_refl)))).
Defined.

(* ===================================================================== *)
(** * A request that fails in the middle of the pagination                *)
(* ===================================================================== *)

Lemma review_threads_loop_aborts owner repo pr_number stderr pages :
  forall fuel after review_comments cs,
  (length pages < fuel)%nat ->
  review_threads_loop Scripted.gh_api_graphql fuel owner repo pr_number after
    review_comments
    {| world := open_page_replies pages ++ [CalledProcessError stderr]; calls := cs |}
  = (Raise (GitHubAPICallError ("gh GraphQL API call failed: " +:+ stderr)),
     {| world := [];
        calls := cs ++ GraphQL (threads_call owner repo pr_number (cursor_field after))
                       :: page_calls owner repo pr_number pages |}).
Proof.
  induction pages as [|[threads cursor] rest IH]; intros fuel after acc cs Hfuel;
    (destruct fuel as [|fuel]; [simpl in Hfuel; lia|]).
  - reflexivity.
  - destruct fuel as [|fuel]; [simpl in Hfuel; lia|].
    rewrite (review_threads_loop_round Scripted.gh_api_graphql (S fuel) owner repo
               pr_number after (map edge_of threads) true cursor acc
               {| world := open_page_replies ((threads, cursor) :: rest)
                           ++ [CalledProcessError stderr];
                  calls := cs |}
               (open_page_replies rest ++ [CalledProcessError stderr]) eq_refl).
    unfold hbind. rewrite review_thread_edges_single_page.
    rewrite IH by (simpl in Hfuel; lia).
    simpl calls. rewrite <- !app_assoc. reflexivity.
Qed.

(** X19. When a request fails after any number of pages that were read, the whole
    fetch raises [GitHubAPICallError] with the error output of that request:
    the comments of the pages read before are not returned, and no request
    follows the failed one. *)
Theorem pagination_aborts_on_failed_request
    (owner repo pr_number stderr : string) (pages : list (list thread_data * json))
    (fuel : nat) :
  (length pages < fuel)%nat ->
  fetch_review_comments_graphql Scripted.gh_api_graphql fuel owner repo pr_number
    (init (open_page_replies pages ++ [CalledProcessError stderr]))
  = (Raise (GitHubAPICallError ("gh GraphQL API call failed: " +:+ stderr)),
     {| world := [];
        calls := GraphQL (threads_call owner repo pr_number None)
                 :: page_calls owner repo pr_number pages |}).
Proof.
  intros Hfuel. unfold fetch_review_comments_graphql, init.
  rewrite review_threads_loop_aborts by exact Hfuel. reflexivity.
Qed.

(** One page with a comment, then a request that fails. *)
Lemma pagination_aborts_on_failed_request_witness :
  let pages := [([{| td_resolved := false; td_path := "app.py"; td_line := 42;
                     td_comments := [("alice", "first")] |}], JStr "t1")] in
  (length pages < 2)%nat
  /\ fetch_review_comments_graphql Scripted.gh_api_graphql 2 "owner" "repo" "10"
       (init (open_page_replies pages ++ [CalledProcessError "HTTP 502"]))
     = (Raise (GitHubAPICallError "gh GraphQL API call failed: HTTP 502"),
        {| world := [];
           calls := [GraphQL (threads_call "owner" "repo" "10" None);
                     GraphQL (threads_call "owner" "repo" "10" (Some (JStr "t1")))] |}).
Proof.
  intros pages.
  assert (Hfuel : (length pages < 2)%nat) by (simpl; lia).
  exact (conj Hfuel
           (pagination_aborts_on_failed_request "owner" "repo" "10" "HTTP 502" pages 2
              Hfuel)).
Defined.

(* ===================================================================== *)
(** * The order of the review comments in the rendered text               *)
(* ===================================================================== *)






